(** * PDF text extraction: page selection and aggregation

    A shallow embedding of [skills/pdf-extraction/scripts/extract_text.py]:
    [parse_page_range] (the selector resolver) and [extract_text] (the
    extraction aggregator), with the properties of the specification
    stated over them.

    Python values are modelled as follows.
    - [int] is [Z] (unbounded).
    - [str] is [string]; a character is a code point below 256.  The
      builtins used by the script ([str.lower], [str.split], [in], [int],
      [len], [str.join]) are given by their CPython behaviour on such
      strings; [str.strip] is there for the statements only, the script
      does not call it.
    - an exception is a value of [exn]; code that may raise returns
      [exn + A].
    - [pdf.pages] is a list whose items are the results of
      [page.extract_text ()] ([None] or a string); subscripting follows
      Python lists, negative subscripts included.
    - [pdf.metadata] is a finite map.

    Opening the file, and the exceptions of the PDF library, are outside
    the model: [extract_text] is given the open document.  So is [main],
    which is also given the parsed command line; what [json.dumps] and
    [str (e)] return is left to the interface [Rendering].  A call of the
    script can therefore fail where the model does not (a missing file, a
    page the library cannot read): the statements about [extract_text]
    and [main] are about a document that has been opened, and say what a
    successful call returns, what follows when the resolver raises or
    returns, and how two calls on the same document compare.

    The model is the interpreter without resource limits.  CPython has
    three that the resolver can meet: [int] raises the [ValueError]
    "Exceeds the limit" on a literal with more digits than the limit in
    force, which is never checked for literals of up to 640 digits
    ([sys.int_info.str_digits_check_threshold]); [list.extend] raises
    [OverflowError] on a range of more than [sys.maxsize] items; and a list
    that does not fit in memory raises [MemoryError].  On the runs that
    meet none of them the model and the script agree.  A statement made
    under the condition that the resolver returns holds of the script
    whatever the limits; the statements that say that the resolver
    returns, or which exception it raises, are restricted to token lists
    [within_limits]: tokens of at most 640 characters that ask for at most
    [small_list] values in all, a size taken to be within reach of any
    interpreter that runs the script. *)

From Stdlib Require Import ZArith Ascii.
From stdpp Require Import base list list_numbers strings gmap sorting pretty.

Local Open Scope Z_scope.

(** ** Exceptions and the error monad *)

Inductive exn : Type :=
| ValueError_invalid_literal (lit : string)
    (* int(lit): invalid literal for int() with base 10 *)
| ValueError_too_many_values
    (* too many values to unpack (expected 2) *)
| ValueError_not_enough_values (got : nat)
    (* not enough values to unpack (expected 2, got ...) *)
| IndexError.
    (* list index out of range *)

Definition raise {A : Type} (e : exn) : exn + A := inl e.

Definition ebind {A B : Type} (m : exn + A) (k : A -> exn + B) : exn + B :=
  match m with
  | inl e => inl e
  | inr a => k a
  end.

Notation "'try!' x <- m ; k" := (ebind m (fun x => k))
  (at level 10, x name, m at level 100, k at level 200,
   format "'[v' 'try!'  x  <-  m ;  '/' k ']'").

(** ** Builtins on characters and strings *)

Module Py.

Definition newline : ascii := "010"%char.

(** Characters for which [str.isspace] holds; [str.strip] removes exactly
    these. *)
Definition is_space (c : ascii) : bool :=
  let n := N_of_ascii c in
  ((9 <=? n) && (n <=? 13) || (28 <=? n) && (n <=? 32)
   || (n =? 133) || (n =? 160))%N.

(** Characters that [int] skips around a literal: those of [is_space]
    except the four separators 28 to 31. *)
Definition int_space (c : ascii) : bool :=
  let n := N_of_ascii c in
  ((9 <=? n) && (n <=? 13) || (n =? 32) || (n =? 133) || (n =? 160))%N.

(** The value of a decimal digit. *)
Definition digit (c : ascii) : option Z :=
  let n := Z.of_N (N_of_ascii c) in
  if (48 <=? n) && (n <=? 57) then Some (n - 48) else None.

(** [c.lower ()] *)
Definition lower_char (c : ascii) : ascii :=
  let n := N_of_ascii c in
  if ((65 <=? n) && (n <=? 90)
      || (192 <=? n) && (n <=? 222) && negb (n =? 215))%N
  then ascii_of_N (n + 32) else c.

(** [s.lower ()] *)
Fixpoint lower (s : string) : string :=
  match s with
  | EmptyString => EmptyString
  | String c r => String (lower_char c) (lower r)
  end.

(** [len (s)] *)
Fixpoint len (s : string) : Z :=
  match s with
  | EmptyString => 0
  | String _ r => 1 + len r
  end.

(** [c in s], for a one-character [c] *)
Fixpoint contains (c : ascii) (s : string) : bool :=
  match s with
  | EmptyString => false
  | String d r => if decide (d = c) then true else contains c r
  end.

(** [s.split (sep)], for a one-character [sep]: the pieces between the
    occurrences of [sep], empty pieces kept. *)
Fixpoint split (sep : ascii) (s : string) : list string :=
  match s with
  | EmptyString => [EmptyString]
  | String c r =>
      if decide (c = sep) then EmptyString :: split sep r
      else match split sep r with
           | piece :: pieces => String c piece :: pieces
           | [] => [String c EmptyString]
           end
  end.

(** [sep.join (l)] *)
Fixpoint join (sep : string) (l : list string) : string :=
  match l with
  | [] => EmptyString
  | [s] => s
  | s :: r => s +:+ sep +:+ join sep r
  end.





(** [int (s)], base 10.  The literal is: optional white space, an
    optional sign, decimal digits with single underscores allowed
    between two digits, optional white space.  [scan] reads the digits:
    [prev_us] tells that the previous character was an underscore,
    [acc] is the value read so far. *)
Fixpoint skip_space (s : string) : string :=
  match s with
  | EmptyString => EmptyString
  | String c r => if int_space c then skip_space r else s
  end.

Fixpoint all_int_space (s : string) : bool :=
  match s with
  | EmptyString => true
  | String c r => int_space c && all_int_space r
  end.

Fixpoint scan (prev_us : bool) (acc : Z) (s : string) : option Z :=
  match s with
  | EmptyString => if prev_us then None else Some acc
  | String c r =>
      match digit c with
      | Some d => scan false (10 * acc + d) r
      | None =>
          if decide (c = "_"%char)
          then (if prev_us then None else scan true acc r)
          else if prev_us then None
          else if all_int_space s then Some acc else None
      end
  end.

Definition digits (s : string) : option Z :=
  match s with
  | EmptyString => None
  | String c r =>
      match digit c with
      | Some d => scan false d r
      | None => None
      end
  end.

Definition signed (s : string) : option Z :=
  match s with
  | String c r =>
      if decide (c = "+"%char) then digits r
      else if decide (c = "-"%char) then Z.opp <$> digits r
      else digits s
  | EmptyString => digits s
  end.

Definition int (s : string) : exn + Z :=
  match signed (skip_space s) with
  | Some z => inr z
  | None => raise (ValueError_invalid_literal s)
  end.

(** [range (start, stop)] *)
Definition range (start stop : Z) : list Z := seqZ start (stop - start).

(** [sorted (set (l))] *)
Definition sorted_set (l : list Z) : list Z :=
  merge_sort Z.le (elements (list_to_set l : gset Z)).

(** [l[i]]: a negative subscript counts from the end. *)
Definition getitem {A : Type} (l : list A) (i : Z) : exn + A :=
  let n := Z.of_nat (length l) in
  let j := if i <? 0 then i + n else i in
  if (0 <=? j) && (j <? n)
  then match l !! Z.to_nat j with
       | Some x => inr x
       | None => raise IndexError
       end
  else raise IndexError.

(** [str (v)] *)
Class Str (V : Type) := str : V -> string.
#[global] Instance str_string : Str string := fun s => s.

End Py.

(** ** The selector resolver *)

(** One iteration of the loop of [parse_page_range]: [pages] is the
    accumulator on entry, the result is the accumulator on exit. *)
Definition parse_part (pages : list Z) (part : string) : exn + list Z :=
  if Py.contains "-" part then
    match Py.split "-" part with
    | [start; end_] =>
        try! start <- Py.int start;
        let start := start - 1 in
        try! end_ <- Py.int end_;
        inr (pages ++ Py.range start end_)
    | [] => raise (ValueError_not_enough_values 0)
    | [_] => raise (ValueError_not_enough_values 1)
    | _ => raise ValueError_too_many_values
    end
  else
    try! n <- Py.int part;
    inr (pages ++ [n - 1]).

Fixpoint parse_parts (pages : list Z) (parts : list string) : exn + list Z :=
  match parts with
  | [] => inr pages
  | part :: rest =>
      try! pages <- parse_part pages part;
      parse_parts pages rest
  end.

Definition parse_page_range (range_str : string) (total_pages : Z)
  : exn + list Z :=
  if decide (Py.lower range_str = "all") then inr (Py.range 0 total_pages)
  else
    try! pages <- parse_parts [] (Py.split "," range_str);
    inr (Py.sorted_set pages).

(** ** The extraction aggregator *)

(** An open document: [doc_pages] is [pdf.pages], each item standing for
    what [page.extract_text ()] returns; [doc_metadata] is [pdf.metadata]. *)
Record document (V : Type) : Type := Document {
  doc_pages : list (option string);
  doc_metadata : gmap string V
}.
Arguments Document {V} _ _.
Arguments doc_pages {V} _.
Arguments doc_metadata {V} _.

(** The [pages] argument of [extract_text]: a string, or anything else. *)
Inductive pages_arg : Type :=
| PagesStr (s : string)
| PagesOther.

Record page_record : Type := PageRecord {
  page : Z;
  text : string;
  char_count : Z
}.

Record result : Type := Result {
  file : string;
  total_pages : Z;
  extracted_pages : Z;
  total_chars : Z;
  pages : list page_record;
  full_text : string;
  metadata : option (gmap string string)
}.

(** What [extract_text] returns: the dictionary with ['success': True], or
    [{'success': False, 'error': str(e)}], of which the model keeps [e]. *)
Inductive outcome : Type :=
| Success (r : result)
| Failure (error : exn).

(** Computations that subscript [pdf.pages] and may raise: the state is the
    list of subscripts used so far, oldest first. *)
Definition M (A : Type) : Type := list Z -> (exn + A) * list Z.

Definition ret {A : Type} (a : A) : M A := fun tr => (inr a, tr).

Definition bind {A B : Type} (m : M A) (k : A -> M B) : M B :=
  fun tr =>
    match m tr with
    | (inl e, tr') => (inl e, tr')
    | (inr a, tr') => k a tr'
    end.

Definition lift {A : Type} (m : exn + A) : M A := fun tr => (m, tr).

Notation "'do!' x <- m ; k" := (bind m (fun x => k))
  (at level 10, x name, m at level 100, k at level 200,
   format "'[v' 'do!'  x  <-  m ;  '/' k ']'").

(** [pdf.pages[i]] *)
Definition subscript_pages {V : Type} (pdf : document V) (i : Z)
  : M (option string) :=
  fun tr => (Py.getitem (doc_pages pdf) i, tr ++ [i]).

(** [text or ''] and [len(text) if text else 0] *)
Definition text_or_empty (text : option string) : string :=
  match text with
  | Some (String c r) => String c r
  | _ => ""
  end.

Definition len_or_zero (text : option string) : Z :=
  match text with
  | Some (String c r) => Py.len (String c r)
  | _ => 0
  end.

(** The loop over [page_numbers]; [extracted] is [extracted_pages]. *)
Fixpoint extract_pages {V : Type} (pdf : document V) (total_pages : Z)
    (page_numbers : list Z) (extracted : list page_record)
  : M (list page_record) :=
  match page_numbers with
  | [] => ret extracted
  | page_num :: rest =>
      if (0 <=? page_num) && (page_num <? total_pages) then
        do! text <- subscript_pages pdf page_num;
        extract_pages pdf total_pages rest
          (extracted ++
             [PageRecord (page_num + 1) (text_or_empty text)
                         (len_or_zero text)])
      else extract_pages pdf total_pages rest extracted
  end.

(** The body of the [with] block. *)
Definition extract_body {V : Type} `{Py.Str V} (file_path : string)
    (pdf : document V) (pages : pages_arg) (include_metadata : bool)
  : M result :=
  let total_pages := Z.of_nat (length (doc_pages pdf)) in
  do! page_numbers <-
    lift (match pages with
          | PagesStr s => parse_page_range s total_pages
          | PagesOther => inr (Py.range 0 total_pages)
          end);
  do! extracted <- extract_pages pdf total_pages page_numbers [];
  let full_text := Py.join (String Py.newline "") (text <$> extracted) in
  ret {| file := file_path;
         total_pages := total_pages;
         extracted_pages := Z.of_nat (length extracted);
         total_chars := Py.len full_text;
         pages := extracted;
         full_text := full_text;
         metadata :=
           if include_metadata && bool_decide (size (doc_metadata pdf) ≠ 0%nat)
           then Some (Py.str <$> doc_metadata pdf)
           else None |}.

(** [extract_text] on an open document, with the subscripts it used. *)
Definition extract_text_traced {V : Type} `{Py.Str V} (file_path : string)
    (pdf : document V) (pages : pages_arg) (include_metadata : bool)
  : outcome * list Z :=
  match extract_body file_path pdf pages include_metadata [] with
  | (inr r, tr) => (Success r, tr)
  | (inl e, tr) => (Failure e, tr)
  end.

Definition extract_text {V : Type} `{Py.Str V} (file_path : string)
    (pdf : document V) (pages : pages_arg) (include_metadata : bool)
  : outcome :=
  fst (extract_text_traced file_path pdf pages include_metadata).

(** ** Auxiliary definitions used in the statements *)

(** What one token adds to the accumulator. *)
Definition contribution (part : string) : exn + list Z := parse_part [] part.

(** The contributions of a list of tokens, when every token is accepted;
    otherwise the exception of the first token that is not. *)
Fixpoint contributions (parts : list string) : exn + list Z :=
  match parts with
  | [] => inr []
  | part :: rest =>
      try! new <- contribution part;
      try! more <- contributions rest;
      inr (new ++ more)
  end.

(** Whether the loop body accepts a token, that is, raises nothing on it. *)
Definition accepts (part : string) : bool :=
  match contribution part with
  | inr _ => true
  | inl _ => false
  end.

(** The tokens of the specification's grammar,
    [token := INT | INT "-" INT], [INT] a non-empty run of decimal digits
    without sign. *)
Fixpoint all_digits (s : string) : bool :=
  match s with
  | EmptyString => true
  | String c r => bool_decide (is_Some (Py.digit c)) && all_digits r
  end.

Definition grammar_int (s : string) : bool :=
  negb (bool_decide (s = "")) && all_digits s.

Definition grammar_token (tok : string) : bool :=
  match Py.split "-" tok with
  | [n] => grammar_int n
  | [a; b] => grammar_int a && grammar_int b
  | _ => false
  end.

(** [selector := "all" | token ("," token)*] *)
Definition grammar_selector (range_str : string) : bool :=
  bool_decide (range_str = "all")
  || bool_decide (Forall (fun t => grammar_token t = true)
                    (Py.split "," range_str)).

(** Whether [int] raises on a string. *)
Definition int_rejects (s : string) : bool :=
  match Py.int s with
  | inl _ => true
  | inr _ => false
  end.

(** The tokens on which the call has to fail, told by [int] and [split]
    alone: a token without dash that [int] rejects, a token of two
    dash-separated pieces one of which [int] rejects, a token of more than
    two pieces. *)
Definition malformed (tok : string) : bool :=
  match Py.split "-" tok with
  | [n] => int_rejects n
  | [a; b] => int_rejects a || int_rejects b
  | _ => true
  end.

(** The exception that a malformed token stands for: the one of [int] on
    the token without dash, or on the first of the two pieces that [int]
    rejects; the one of the unpacking when there are more pieces. *)
Definition exception_of (tok : string) : exn :=
  match Py.split "-" tok with
  | [n] => ValueError_invalid_literal n
  | [a; b] =>
      if int_rejects a then ValueError_invalid_literal a
      else ValueError_invalid_literal b
  | _ => ValueError_too_many_values
  end.

(** The number of values a token asks for: one for a page, and for the
    range from [x] to [y] the numbers from [x] to [y]. *)
Definition span (tok : string) : Z :=
  match Py.split "-" tok with
  | [a; b] =>
      match Py.int a, Py.int b with
      | inr x, inr y => Z.max 0 (y - x + 1)
      | _, _ => 0
      end
  | _ => 1
  end.

(** Token lists that keep the resolver away from the limits of the
    interpreter: no token is longer than the number of digits below which
    [int] checks no limit, and the accumulator gets at most [small_list]
    values. *)
Definition str_digits_check_threshold : Z := 640.

Definition small_list : Z := 65536.

Definition within_limits (parts : list string) : bool :=
  forallb (fun tok => Py.len tok <=? str_digits_check_threshold) parts
  && (foldr (fun tok n => span tok + n) 0 parts <=? small_list).





(** The list [page_numbers] of [extract_text]. *)
Definition page_numbers_of {V : Type} (pdf : document V) (pages : pages_arg)
  : exn + list Z :=
  let total_pages := Z.of_nat (length (doc_pages pdf)) in
  match pages with
  | PagesStr s => parse_page_range s total_pages
  | PagesOther => inr (Py.range 0 total_pages)
  end.

(** The values that pass the guard [0 <= page_num < total_pages]. *)
Definition guarded {V : Type} (pdf : document V) (l : list Z) : list Z :=
  filter (fun v => 0 <= v < Z.of_nat (length (doc_pages pdf))) l.

(** The record built for the page at position [v], counted from the start. *)
Definition record_at {V : Type} (pdf : document V) (v : Z) : page_record :=
  let text := default None (doc_pages pdf !! Z.to_nat v) in
  PageRecord (v + 1) (text_or_empty text) (len_or_zero text).

(** [sum (p['char_count'] for p in l)] *)
Definition sum_char_counts (l : list page_record) : Z :=
  foldr (fun p a => char_count p + a) 0 l.

(** Documents used as concrete inputs. *)
Definition demo_pdf : document string :=
  Document [Some "a"; None; Some ""; Some "dd"; Some "e"]
           {[ "Title" := "T" ]}.

Definition two_pages : document string :=
  Document [Some "a"; Some "b"] ∅.

(** ** The command line *)

(** [str (n)] for an integer, which is also what an f-string writes for
    it: the decimal digits, after a minus sign when negative. *)
Definition str_int (n : Z) : string := pretty n.

(** [s * n] *)
Fixpoint str_repeat (s : string) (n : nat) : string :=
  match n with
  | O => ""
  | S n => s +:+ str_repeat s n
  end.

Definition str_mul (s : string) (n : Z) : string := str_repeat s (Z.to_nat n).

(** What the library renders: [json.dumps (result, indent=2, default=str)]
    and [str (e)]. *)
Class Rendering : Type := {
  json_dumps : result -> string;
  exn_message : exn -> string
}.

(** The namespace returned by [parser.parse_args ()]. *)
Inductive output_format : Type :=
| OutputJson
| OutputText.

Record namespace : Type := Namespace {
  args_file : string;
  args_pages : string;
  args_output : output_format;
  args_no_metadata : bool;
  args_page_breaks : bool
}.

(** What a run leaves behind: the two streams and the exit status. *)
Record process : Type := Process {
  stdout : string;
  stderr : string;
  exit_status : Z
}.

(** [print (x)] on a stream whose content so far is [out]. *)
Definition print (x : string) (out : string) : string :=
  out +:+ x +:+ String Py.newline "".

(** The body of the loop over [result['pages']]. *)
Definition print_page (out : string) (page_ : page_record) : string :=
  let out := print (String Py.newline "" +:+ str_mul "=" 60) out in
  let out := print ("Page " +:+ str_int (page page_)) out in
  let out := print (str_mul "=" 60 +:+ String Py.newline "") out in
  print (text page_) out.

Definition main `{Rendering} {V : Type} `{Py.Str V}
    (pdf : document V) (args : namespace) : process :=
  match extract_text (args_file args) pdf (PagesStr (args_pages args))
          (negb (args_no_metadata args)) with
  | Failure e =>
      {| stdout := "";
         stderr := print ("Error: " +:+ exn_message e) "";
         exit_status := 1 |}
  | Success result =>
      {| stdout :=
           match args_output args with
           | OutputJson => print (json_dumps result) ""
           | OutputText =>
               if args_page_breaks args
               then foldl print_page "" (pages result)
               else print (full_text result) ""
           end;
         stderr := "";
         exit_status := 0 |}
  end.

(** A rendering used for concrete inputs. *)
Definition no_rendering : Rendering :=
  {| json_dumps := fun _ => "{}"; exn_message := fun _ => "ValueError" |}.

(** A list of lines as a stream: each line followed by a newline. *)
Fixpoint unlines (L : list string) : string :=
  match L with
  | [] => ""
  | l :: L => l +:+ String Py.newline "" +:+ unlines L
  end.

(** The lines that [main] prints for a record when asked for page breaks:
    a header of five lines, then the lines of the text. *)
Definition page_lines (p : page_record) : list string :=
  [""; str_mul "=" 60; "Page " +:+ str_int (page p); str_mul "=" 60; ""]
  ++ Py.split Py.newline (text p).

(** * Lemmas *)

(** ** Sorting and ranges *)

Section sorted_set.
Implicit Types (l : list Z) (x : Z).

Lemma strictly_ascending l :
  StronglySorted Z.le l -> NoDup l -> StronglySorted Z.lt l.
Proof.
  induction 1 as [|x l Hs IH Hx]; intros Hnd; [constructor|].
  apply NoDup_cons in Hnd as [Hnot Hnd].
  constructor; [by apply IH|].
  rewrite Forall_forall in Hx |- *.
  intros y Hy. specialize (Hx y Hy).
  assert (x <> y) by (intros ->; contradiction).
  lia.
Qed.

Lemma ascending_NoDup l : StronglySorted Z.lt l -> NoDup l.
Proof.
  induction 1 as [|x l Hs IH Hx]; [constructor|].
  apply NoDup_cons. split; [|done].
  rewrite Forall_forall in Hx. intros Hin. specialize (Hx x Hin). lia.
Qed.

Lemma sorted_set_Permutation l :
  Py.sorted_set l ≡ₚ elements (list_to_set l : gset Z).
Proof. apply merge_sort_Permutation. Qed.

Lemma elem_of_sorted_set l x : x ∈ Py.sorted_set l <-> x ∈ l.
Proof.
  rewrite sorted_set_Permutation, elem_of_elements.
  apply elem_of_list_to_set.
Qed.

Lemma sorted_set_NoDup l : NoDup (Py.sorted_set l).
Proof. rewrite sorted_set_Permutation. apply NoDup_elements. Qed.

Lemma sorted_set_ascending l : StronglySorted Z.lt (Py.sorted_set l).
Proof.
  apply strictly_ascending; [|apply sorted_set_NoDup].
  apply (StronglySorted_merge_sort Z.le).
Qed.

(** Two strictly ascending lists with the same elements are equal. *)
Lemma ascending_ext l1 l2 :
  StronglySorted Z.lt l1 -> StronglySorted Z.lt l2 ->
  (forall x, x ∈ l1 <-> x ∈ l2) -> l1 = l2.
Proof.
  intros H1 H2 Hext.
  apply (StronglySorted_unique_strong Z.lt); [intros; lia|done..|].
  apply NoDup_Permutation; auto using ascending_NoDup.
Qed.

Lemma sorted_set_ext l1 l2 :
  (forall x, x ∈ l1 <-> x ∈ l2) -> Py.sorted_set l1 = Py.sorted_set l2.
Proof.
  intros Hext. apply ascending_ext; auto using sorted_set_ascending.
  intros x. by rewrite !elem_of_sorted_set.
Qed.

Lemma succ_ascending l :
  StronglySorted Z.lt l -> StronglySorted Z.lt (Z.succ <$> l).
Proof.
  induction 1 as [|x l Hs IH Hx]; [constructor|].
  rewrite fmap_cons. constructor; [done|].
  apply Forall_fmap. eapply Forall_impl; [done|]. simpl. intros; lia.
Qed.

Lemma seqZ_ascending m n : StronglySorted Z.lt (seqZ m n).
Proof.
  destruct (decide (n <= 0)) as [Hn|Hn]; [rewrite seqZ_nil by done; constructor|].
  rewrite <-(Z2Nat.id n) by lia. generalize (Z.to_nat n) as k. clear.
  intros k. revert m. induction k as [|k IH]; intros m.
  - rewrite seqZ_nil by done. constructor.
  - rewrite seqZ_cons by lia. constructor.
    + replace (Z.pred (Z.of_nat (S k))) with (Z.of_nat k) by lia. apply IH.
    + apply Forall_seqZ. intros; lia.
Qed.

Lemma range_ascending a b : StronglySorted Z.lt (Py.range a b).
Proof. apply seqZ_ascending. Qed.

Lemma range_empty a b : b <= a -> Py.range a b = [].
Proof. intros. unfold Py.range. apply seqZ_nil. lia. Qed.

End sorted_set.

(** ** Splitting *)

Section split.
Implicit Types (c sep : ascii) (s : string).

Lemma split_nonempty sep s : Py.split sep s <> [].
Proof.
  destruct s as [|c s]; simpl; [done|].
  case_decide; [done|]. by destruct (Py.split sep s).
Qed.

Lemma split_no_sep sep s : Py.contains sep s = false -> Py.split sep s = [s].
Proof.
  induction s as [|c s IH]; simpl; [done|].
  case_decide; [done|]. intros Hs. by rewrite IH.
Qed.

Lemma split_sep sep s :
  Py.contains sep s = true -> exists a b r, Py.split sep s = a :: b :: r.
Proof.
  induction s as [|c s IH]; simpl; [done|].
  case_decide.
  - intros _. destruct (Py.split sep s) as [|b r] eqn:Hs.
    + by apply split_nonempty in Hs.
    + eauto.
  - intros (a & b & r & ->)%IH. eauto.
Qed.

Lemma join_split sep s : Py.join (String sep "") (Py.split sep s) = s.
Proof.
  induction s as [|c s IH]; simpl; [done|].
  case_decide as Hc.
  - subst c. destruct (Py.split sep s) as [|b r] eqn:Hs.
    + by apply split_nonempty in Hs.
    + simpl in *. by rewrite IH.
  - destruct (Py.split sep s) as [|b r] eqn:Hs.
    + by apply split_nonempty in Hs.
    + rewrite <-IH. by destruct r.
Qed.

Lemma split_inj sep s1 s2 : Py.split sep s1 = Py.split sep s2 -> s1 = s2.
Proof.
  intros Heq. by rewrite <-(join_split sep s1), Heq, join_split.
Qed.

End split.

(** ** The loop of the resolver *)

Section resolver.
Implicit Types (pages acc : list Z) (part tok : string) (parts : list string).

Lemma parse_part_acc pages part :
  parse_part pages part =
  try! new <- contribution part; inr (pages ++ new).
Proof.
  unfold contribution, parse_part.
  destruct (Py.contains "-" part).
  - destruct (Py.split "-" part) as [|a [|b [|c r]]]; try done.
    destruct (Py.int a); [done|]; simpl.
    destruct (Py.int b); done.
  - destruct (Py.int part); done.
Qed.

Lemma parse_parts_app pages parts1 parts2 :
  parse_parts pages (parts1 ++ parts2) =
  try! pages <- parse_parts pages parts1; parse_parts pages parts2.
Proof.
  revert pages. induction parts1 as [|p parts1 IH]; intros pages; [done|].
  simpl. destruct (parse_part pages p); simpl; [done|]. apply IH.
Qed.

Lemma parse_parts_contributions pages parts :
  parse_parts pages parts =
  try! new <- contributions parts; inr (pages ++ new).
Proof.
  revert pages. induction parts as [|p parts IH]; intros pages; simpl.
  - by rewrite app_nil_r.
  - rewrite parse_part_acc. destruct (contribution p) as [e|new]; [done|].
    simpl. rewrite IH. destruct (contributions parts) as [e|more]; [done|].
    simpl. by rewrite app_assoc.
Qed.

Lemma parse_page_range_inr range_str total_pages l :
  parse_page_range range_str total_pages = inr l ->
  (Py.lower range_str = "all" /\ l = Py.range 0 total_pages) \/
  (Py.lower range_str <> "all" /\
   exists acc, parse_parts [] (Py.split "," range_str) = inr acc /\
               l = Py.sorted_set acc).
Proof.
  unfold parse_page_range. case_decide as Hall.
  - intros [= <-]. by left.
  - destruct (parse_parts _ _) as [e|acc] eqn:Hacc; [done|].
    intros [= <-]. right. eauto.
Qed.

Lemma parse_page_range_ascending range_str total_pages l :
  parse_page_range range_str total_pages = inr l -> StronglySorted Z.lt l.
Proof.
  intros [[_ ->]|[_ (acc & _ & ->)]]%parse_page_range_inr.
  - apply range_ascending.
  - apply sorted_set_ascending.
Qed.

End resolver.

(** ** Exceptions of the resolver *)

Section resolver_exn.
Implicit Types (part : string) (parts : list string) (e : exn).

(** The exceptions one token can raise. *)
Lemma contribution_exn part e :
  contribution part = inl e ->
  e = ValueError_too_many_values \/
  exists lit, lit ∈ Py.split "-" part /\ e = ValueError_invalid_literal lit.
Proof.
  unfold contribution, parse_part.
  destruct (Py.contains "-" part) eqn:Hdash.
  - apply split_sep in Hdash as (a & b & r & ->).
    destruct r as [|c r]; [|intros [= <-]; by left].
    unfold Py.int at 1.
    destruct (Py.signed (Py.skip_space a)); simpl.
    + unfold Py.int. destruct (Py.signed (Py.skip_space b)); simpl; [done|].
      intros [= <-]. right. exists b. split; [set_solver|done].
    + intros [= <-]. right. exists a. split; [set_solver|done].
  - rewrite (split_no_sep _ _ Hdash). unfold Py.int.
    destruct (Py.signed (Py.skip_space part)); simpl; [done|].
    intros [= <-]. right. exists part. split; [set_solver|done].
Qed.

Lemma contributions_exn parts e :
  contributions parts = inl e ->
  exists part, part ∈ parts /\ contribution part = inl e.
Proof.
  induction parts as [|p parts IH]; simpl; [done|].
  destruct (contribution p) as [e'|new] eqn:Hp; simpl.
  - intros [= <-]. exists p. split; [set_solver|done].
  - destruct (contributions parts) as [e'|more]; simpl; [|done].
    intros [= <-]. destruct IH as (part & Hin & Hpart); [done|].
    exists part. split; [set_solver|done].
Qed.

Lemma parse_page_range_exn range_str total_pages e :
  parse_page_range range_str total_pages = inl e ->
  Py.lower range_str <> "all" /\
  exists part, part ∈ Py.split "," range_str /\ contribution part = inl e.
Proof.
  unfold parse_page_range. case_decide; [done|].
  rewrite parse_parts_contributions.
  destruct (contributions _) as [e'|acc] eqn:Hc; simpl; [|done].
  intros [= <-]. split; [done|]. by apply contributions_exn.
Qed.

Lemma parse_page_range_no_IndexError range_str total_pages :
  parse_page_range range_str total_pages <> inl IndexError.
Proof.
  intros (_ & part & _ & [?|(lit & _ & ?)]%contribution_exn)%parse_page_range_exn;
    done.
Qed.

End resolver_exn.

(** ** Failures *)

Section failures.
Implicit Types (s tok : string) (c : ascii).

Lemma lower_char_a c : Py.lower_char c = "a"%char -> c = "a"%char \/ c = "A"%char.
Proof.
  destruct c as [[] [] [] [] [] [] [] []]; vm_compute; intros;
    first [discriminate | by left | by right].
Qed.

Lemma lower_char_l c : Py.lower_char c = "l"%char -> c = "l"%char \/ c = "L"%char.
Proof.
  destruct c as [[] [] [] [] [] [] [] []]; vm_compute; intros;
    first [discriminate | by left | by right].
Qed.

(** The eight spellings of the all-keyword. *)
Lemma lower_all_inv s :
  Py.lower s = "all" ->
  s ∈ ["all"; "alL"; "aLl"; "aLL"; "All"; "AlL"; "ALl"; "ALL"].
Proof.
  destruct s as [|c1 [|c2 [|c3 [|c4 s]]]]; try done.
  simpl. intros [= H1 H2 H3].
  apply lower_char_a in H1 as [-> | ->];
    apply lower_char_l in H2 as [-> | ->];
    apply lower_char_l in H3 as [-> | ->]; set_solver.
Qed.

Lemma lower_all_split s : Py.lower s = "all" -> Py.split "," s = [s].
Proof.
  intros Hs%lower_all_inv. apply split_no_sep.
  repeat (apply elem_of_cons in Hs as [-> | Hs]; [done|]).
  by apply elem_of_nil in Hs.
Qed.

Lemma contributions_inr parts acc :
  contributions parts = inr acc -> Forall (fun p => accepts p = true) parts.
Proof.
  revert acc. induction parts as [|p parts IH]; intros acc; [constructor|].
  simpl.
  destruct (contribution p) as [e|new] eqn:Hp; simpl; [done|].
  destruct (contributions parts) as [e|more]; simpl; [done|].
  intros _. constructor; [|by eapply IH].
  unfold accepts. by rewrite Hp.
Qed.


End failures.

(** ** The order of the tokens *)

Section token_order.
Implicit Types (s : string) (parts : list string).

Lemma contributions_Permutation parts1 parts2 acc1 :
  parts1 ≡ₚ parts2 ->
  contributions parts1 = inr acc1 ->
  exists acc2, contributions parts2 = inr acc2 /\ acc1 ≡ₚ acc2.
Proof.
  intros Hperm. revert acc1.
  induction Hperm as [|p parts1 parts2 _ IH|p q parts|parts1 parts2 parts3 _ IH1 _ IH2];
    intros acc1; cbn [contributions].
  - intros [= <-]. eauto.
  - destruct (contribution p) as [|new]; [done|]. cbn [ebind].
    destruct (contributions parts1) as [|more]; [done|]. cbn [ebind].
    intros [= <-]. destruct (IH more eq_refl) as (more' & -> & Hmore).
    exists (new ++ more'). split; [done|]. by rewrite Hmore.
  - destruct (contribution p) as [|newp]; [by destruct (contribution q)|].
    destruct (contribution q) as [|newq]; [done|]. cbn [ebind].
    destruct (contributions parts) as [|more]; [done|]. cbn [ebind].
    intros [= <-]. eexists. split; [done|].
    rewrite !app_assoc. f_equiv. apply Permutation_app_comm.
  - intros H1. destruct (IH1 _ H1) as (acc2 & H2 & Hp12).
    destruct (IH2 _ H2) as (acc3 & H3 & Hp23).
    exists acc3. split; [done|]. by etrans.
Qed.

(** Reordering the tokens of a selector does not change what it resolves
    to. *)
Lemma parse_page_range_token_permutation s1 s2 total_pages l :
  Py.split "," s1 ≡ₚ Py.split "," s2 ->
  parse_page_range s1 total_pages = inr l ->
  parse_page_range s2 total_pages = inr l.
Proof.
  intros Hperm Hl.
  assert (forall s s', Py.split "," s ≡ₚ Py.split "," s' ->
                       Py.lower s = "all" -> s' = s) as Hsame.
  { intros s s' Hp Hall. rewrite (lower_all_split _ Hall) in Hp.
    apply Permutation_singleton_l in Hp.
    apply (split_inj ","). by rewrite (lower_all_split _ Hall). }
  apply parse_page_range_inr in Hl as [[Hall ->]|[Hnall (acc & Hacc & ->)]].
  - rewrite (Hsame _ _ Hperm Hall).
    unfold parse_page_range. by rewrite decide_True by done.
  - unfold parse_page_range. rewrite decide_False.
    + rewrite parse_parts_contributions in Hacc |- *.
      destruct (contributions (Py.split "," s1)) as [|new] eqn:Hc; [done|].
      simpl in Hacc. injection Hacc as <-.
      destruct (contributions_Permutation _ _ _ Hperm Hc) as (new' & -> & Hp).
      simpl. f_equal. apply sorted_set_ext. intros v. by rewrite Hp.
    + intros Hall. symmetry in Hperm.
      rewrite (Hsame _ _ Hperm Hall) in Hnall. done.
Qed.

End token_order.

(** ** White space *)

Section white_space.
Implicit Types (s : string) (c sep : ascii).

Lemma space_not_digit c : Py.is_space c = true -> Py.digit c = None.
Proof. destruct c as [[] [] [] [] [] [] [] []]; by vm_compute. Qed.









Lemma int_space_is_space c : Py.int_space c = true -> Py.is_space c = true.
Proof. destruct c as [[] [] [] [] [] [] [] []]; by vm_compute. Qed.














End white_space.

(** ** White space and splitting *)

Section split_strip.
Implicit Types (s : string) (sep : ascii) (l pre : list string).

Lemma split_pieces_no_sep sep s :
  Forall (fun t => Py.contains sep t = false) (Py.split sep s).
Proof.
  induction s as [|c s IH]; simpl; [by repeat constructor|].
  case_decide as Hc; [by constructor|].
  destruct (Py.split sep s) as [|h t] eqn:Hs; [by apply split_nonempty in Hs|].
  apply Forall_cons in IH as [Hh Ht]. constructor; [|done].
  simpl. by rewrite decide_False by done.
Qed.

Lemma split_app_sep sep a b :
  Py.contains sep a = false ->
  Py.split sep (a +:+ String sep b) = a :: Py.split sep b.
Proof.
  induction a as [|c a IH]; simpl.
  - intros _. change ("" +:+ String sep b) with (String sep b).
    cbn [Py.split]. by case_decide.
  - case_decide as Hc; [done|]. intros Ha. by rewrite IH.
Qed.

Lemma split_join sep l :
  l <> [] ->
  Forall (fun t => Py.contains sep t = false) l ->
  Py.split sep (Py.join (String sep "") l) = l.
Proof.
  intros Hne Hl. induction Hl as [|a l Ha Hl IH]; [done|].
  destruct l as [|b l].
  - simpl. by apply split_no_sep.
  - change (Py.join (String sep "") (a :: b :: l))
      with (a +:+ String sep "" +:+ Py.join (String sep "") (b :: l)).
    change (String sep "" +:+ ?x) with (String sep x).
    rewrite split_app_sep by done. by rewrite IH.
Qed.




End split_strip.

(** ** Stripped tokens *)

Section stripped_tokens.
Implicit Types (s tok : string) (parts : list string).



Lemma all_keyword_rejected_as_token s :
  Py.lower s = "all" -> contribution s = inl (ValueError_invalid_literal s).
Proof.
  intros Hs%lower_all_inv.
  repeat (apply elem_of_cons in Hs as [-> | Hs]; [done|]).
  by apply elem_of_nil in Hs.
Qed.




End stripped_tokens.

(** ** Selectors of the grammar *)

Section grammar.
Implicit Types (s tok : string) (parts : list string).

Lemma scan_all_digits s acc :
  all_digits s = true -> exists z, Py.scan false acc s = Some z.
Proof.
  revert acc. induction s as [|c s IH]; intros acc; simpl; [eauto|].
  intros [[d Hd]%bool_decide_eq_true Hs]%andb_true_iff.
  rewrite Hd. auto.
Qed.

Lemma grammar_int_accepted s :
  grammar_int s = true -> exists z, Py.int s = inr z.
Proof.
  unfold grammar_int. intros [Hne Hs]%andb_true_iff.
  destruct s as [|c s]; [done|]. simpl in Hs.
  apply andb_true_iff in Hs as [[d Hd]%bool_decide_eq_true Hs].
  unfold Py.int. cbn [Py.skip_space].
  destruct (Py.int_space c) eqn:Hc;
    [apply int_space_is_space, space_not_digit in Hc; congruence|].
  cbn [Py.signed Py.digits].
  rewrite !decide_False by (intros ->; done).
  rewrite Hd. destruct (scan_all_digits s d Hs) as [z ->]. eauto.
Qed.

Lemma grammar_token_accepted tok :
  grammar_token tok = true -> accepts tok = true.
Proof.
  unfold grammar_token, accepts, contribution, parse_part.
  destruct (Py.contains "-" tok) eqn:Hdash.
  - apply split_sep in Hdash as (a & b & r & ->).
    destruct r; [|done].
    intros [[za ->]%grammar_int_accepted [zb ->]%grammar_int_accepted]%andb_true_iff.
    done.
  - rewrite (split_no_sep _ _ Hdash).
    by intros [z ->]%grammar_int_accepted.
Qed.

Lemma contributions_accepts parts :
  Forall (fun p => accepts p = true) parts ->
  exists acc, contributions parts = inr acc.
Proof.
  induction 1 as [|p parts Hp _ [more IH]]; simpl; [eauto|].
  unfold accepts in Hp. destruct (contribution p); [done|].
  simpl. rewrite IH. simpl. eauto.
Qed.

Lemma grammar_selector_resolves s total_pages :
  grammar_selector s = true -> exists l, parse_page_range s total_pages = inr l.
Proof.
  intros Hs. unfold parse_page_range.
  case_decide as Hall; [by eexists|].
  unfold grammar_selector in Hs.
  apply orb_true_iff in Hs as [->%bool_decide_eq_true|Hs%bool_decide_eq_true];
    [exfalso; apply Hall; reflexivity|].
  rewrite parse_parts_contributions.
  destruct (contributions_accepts (Py.split "," s)) as [acc ->]; [|simpl; eauto].
  eapply Forall_impl; [done|]. apply grammar_token_accepted.
Qed.

End grammar.

(** ** The loop of the aggregator *)

Section aggregator.
Context {V : Type} `{!Py.Str V}.
Implicit Types (pdf : document V) (l nums : list Z) (tr : list Z).

Lemma getitem_guarded {A : Type} (xs : list A) (i : Z) :
  0 <= i < Z.of_nat (length xs) ->
  exists x, xs !! Z.to_nat i = Some x /\ Py.getitem xs i = inr x.
Proof.
  intros Hi. unfold Py.getitem.
  destruct (Z.ltb_spec i 0) as [|_]; [lia|].
  destruct (Z.leb_spec 0 i) as [_|]; [|lia].
  destruct (Z.ltb_spec i (Z.of_nat (length xs))) as [_|]; [|lia]. simpl.
  destruct (lookup_lt_is_Some_2 xs (Z.to_nat i)) as [x Hx]; [lia|].
  exists x. by rewrite Hx.
Qed.

Lemma extract_pages_spec pdf nums acc tr :
  extract_pages pdf (Z.of_nat (length (doc_pages pdf))) nums acc tr =
  (inr (acc ++ (record_at pdf <$> guarded pdf nums)), tr ++ guarded pdf nums).
Proof.
  unfold guarded. revert acc tr.
  induction nums as [|v nums IH]; intros acc tr; simpl.
  - by rewrite !app_nil_r.
  - rewrite filter_cons.
    destruct (decide (0 <= v < Z.of_nat (length (doc_pages pdf)))) as [Hv|Hv].
    + destruct (Z.leb_spec 0 v) as [_|]; [|lia].
      destruct (Z.ltb_spec v (Z.of_nat (length (doc_pages pdf)))) as [_|]; [|lia].
      simpl. unfold bind, subscript_pages.
      destruct (getitem_guarded (doc_pages pdf) v Hv) as (t & Ht & ->).
      rewrite IH, <-!app_assoc. simpl.
      unfold record_at at 2. by rewrite Ht.
    + destruct (Z.leb_spec 0 v), (Z.ltb_spec v (Z.of_nat (length (doc_pages pdf))));
        simpl; first [lia | apply IH].
Qed.

Lemma extract_text_traced_eq file_path pdf arg include_metadata :
  extract_text_traced file_path pdf arg include_metadata =
  match page_numbers_of pdf arg with
  | inl e => (Failure e, [])
  | inr l =>
      let extracted := record_at pdf <$> guarded pdf l in
      let full_text := Py.join (String Py.newline "") (text <$> extracted) in
      (Success
         {| file := file_path;
            total_pages := Z.of_nat (length (doc_pages pdf));
            extracted_pages := Z.of_nat (length extracted);
            total_chars := Py.len full_text;
            pages := extracted;
            full_text := full_text;
            metadata :=
              if include_metadata
                 && bool_decide (size (doc_metadata pdf) ≠ 0%nat)
              then Some (Py.str <$> doc_metadata pdf)
              else None |},
       guarded pdf l)
  end.
Proof.
  unfold extract_text_traced, extract_body, bind, lift.
  fold (page_numbers_of pdf arg).
  destruct (page_numbers_of pdf arg) as [e|l]; [done|].
  by rewrite extract_pages_spec.
Qed.

Lemma extract_text_Success file_path pdf arg include_metadata r :
  extract_text file_path pdf arg include_metadata = Success r ->
  exists l, page_numbers_of pdf arg = inr l /\
    pages r = record_at pdf <$> guarded pdf l /\
    full_text r = Py.join (String Py.newline "") (text <$> pages r) /\
    total_chars r = Py.len (full_text r) /\
    metadata r =
      (if include_metadata && bool_decide (size (doc_metadata pdf) ≠ 0%nat)
       then Some (Py.str <$> doc_metadata pdf) else None).
Proof.
  unfold extract_text. rewrite extract_text_traced_eq.
  destruct (page_numbers_of pdf arg) as [e|l]; [done|].
  simpl. intros [= <-]. by exists l.
Qed.

Lemma extract_text_Failure file_path pdf arg include_metadata e :
  extract_text file_path pdf arg include_metadata = Failure e ->
  page_numbers_of pdf arg = inl e.
Proof.
  unfold extract_text. rewrite extract_text_traced_eq.
  destruct (page_numbers_of pdf arg) as [e'|l]; [|done].
  simpl. by intros [= <-].
Qed.

Lemma extract_text_subscripts file_path pdf arg include_metadata :
  snd (extract_text_traced file_path pdf arg include_metadata) =
  match page_numbers_of pdf arg with
  | inl _ => []
  | inr l => guarded pdf l
  end.
Proof.
  rewrite extract_text_traced_eq. by destruct (page_numbers_of pdf arg).
Qed.

Lemma guarded_ascending pdf l :
  StronglySorted Z.lt l -> StronglySorted Z.lt (guarded pdf l).
Proof.
  induction 1 as [|x l Hs IH Hx]; [constructor|].
  unfold guarded. rewrite filter_cons. case_decide; [|done].
  constructor; [done|].
  rewrite Forall_forall in Hx |- *. intros y [_ Hy]%list_elem_of_filter. auto.
Qed.

Lemma page_record_at pdf l :
  page <$> (record_at pdf <$> l) = Z.succ <$> l.
Proof. rewrite <-list_fmap_compose. by apply list_fmap_ext. Qed.

End aggregator.

(** ** Character counts and the joined text *)

Section counts.
Implicit Types (s sep : string) (l : list string).

Lemma len_app s1 s2 : Py.len (s1 +:+ s2) = Py.len s1 + Py.len s2.
Proof.
  induction s1 as [|c s1 IH]; [done|].
  change (String c s1 +:+ s2) with (String c (s1 +:+ s2)).
  simpl. lia.
Qed.

Lemma len_join sep l :
  Py.len (Py.join sep l)
  = foldr (fun s a => Py.len s + a) 0 l
    + Py.len sep * Z.max 0 (Z.of_nat (length l) - 1).
Proof.
  induction l as [|s [|s' l] IH].
  - simpl. lia.
  - simpl. lia.
  - change (Py.join sep (s :: s' :: l))
      with (s +:+ sep +:+ Py.join sep (s' :: l)).
    rewrite !len_app, IH. simpl length. simpl foldr.
    replace (Z.max 0 (Z.of_nat (S (S (length l))) - 1))
      with (1 + Z.max 0 (Z.of_nat (S (length l)) - 1)) by lia.
    lia.
Qed.

Lemma char_count_text (t : option string) :
  len_or_zero t = Py.len (text_or_empty t).
Proof. by destruct t as [[|c r]|]. Qed.

Lemma sum_char_counts_text (ps : list page_record) :
  Forall (fun p => char_count p = Py.len (text p)) ps ->
  sum_char_counts ps = foldr (fun s a => Py.len s + a) 0 (text <$> ps).
Proof.
  induction 1 as [|p ps Hp _ IH]; [done|]. simpl. by rewrite Hp, IH.
Qed.

End counts.

(** ** Malformed tokens *)

Section malformed_tokens.
Implicit Types (s tok : string) (parts before after : list string).

Lemma int_rejects_inl s :
  int_rejects s = true -> Py.int s = inl (ValueError_invalid_literal s).
Proof.
  unfold int_rejects, Py.int. by destruct (Py.signed (Py.skip_space s)).
Qed.

Lemma int_rejects_inr s : int_rejects s = false -> exists z, Py.int s = inr z.
Proof. unfold int_rejects. destruct (Py.int s); [done|eauto]. Qed.

(** The loop body raises on the malformed tokens, the exception being the
    one told by [exception_of], and on no other token. *)
Lemma contribution_malformed tok :
  malformed tok = true -> contribution tok = inl (exception_of tok).
Proof.
  unfold malformed, exception_of, contribution, parse_part.
  destruct (Py.contains "-" tok) eqn:Hdash.
  - apply split_sep in Hdash as (a & b & r & ->).
    destruct r as [|c r]; [|done].
    destruct (int_rejects a) eqn:Ha.
    + intros _. by rewrite (int_rejects_inl _ Ha).
    + destruct (int_rejects_inr _ Ha) as [x ->]. simpl.
      intros Hb. by rewrite (int_rejects_inl _ Hb).
  - rewrite (split_no_sep _ _ Hdash).
    intros Hn. by rewrite (int_rejects_inl _ Hn).
Qed.

Lemma contribution_well_formed tok :
  malformed tok = false -> exists new, contribution tok = inr new.
Proof.
  unfold malformed, contribution, parse_part.
  destruct (Py.contains "-" tok) eqn:Hdash.
  - apply split_sep in Hdash as (a & b & r & ->).
    destruct r as [|c r]; [|done].
    intros [Ha Hb]%orb_false_iff.
    destruct (int_rejects_inr _ Ha) as [x ->].
    destruct (int_rejects_inr _ Hb) as [y ->].
    simpl. eauto.
  - rewrite (split_no_sep _ _ Hdash).
    intros [n ->]%int_rejects_inr. simpl. eauto.
Qed.

Lemma accepts_well_formed tok : accepts tok = negb (malformed tok).
Proof.
  unfold accepts. destruct (malformed tok) eqn:Htok.
  - by rewrite (contribution_malformed _ Htok).
  - by destruct (contribution_well_formed _ Htok) as [new ->].
Qed.

Lemma contributions_well_formed parts :
  Forall (fun t => malformed t = false) parts ->
  exists acc, contributions parts = inr acc.
Proof.
  intros Hparts. apply contributions_accepts.
  eapply Forall_impl; [done|]. simpl.
  intros t Ht. by rewrite accepts_well_formed, Ht.
Qed.

Lemma well_formed_tokens parts acc :
  contributions parts = inr acc -> Forall (fun t => malformed t = false) parts.
Proof.
  intros Hparts%contributions_inr.
  eapply Forall_impl; [done|]. simpl.
  intros t. rewrite accepts_well_formed. by destruct (malformed t).
Qed.

(** A malformed token anywhere makes the resolver raise. *)
Lemma malformed_token_raises s total_pages tok :
  Py.lower s <> "all" ->
  tok ∈ Py.split "," s ->
  malformed tok = true ->
  exists e, parse_page_range s total_pages = inl e.
Proof.
  intros Hall Hin Hbad.
  destruct (parse_page_range s total_pages) as [e|l] eqn:Hl; [eauto|].
  exfalso.
  apply parse_page_range_inr in Hl as [[Hs _]|[_ (acc & Hacc & _)]]; [done|].
  rewrite parse_parts_contributions in Hacc.
  destruct (contributions _) as [e|new] eqn:Hc; [done|].
  apply well_formed_tokens in Hc.
  rewrite Forall_forall in Hc. specialize (Hc tok Hin). congruence.
Qed.


End malformed_tokens.

(** ** White space that [int] skips *)

Section int_white_space.
Implicit Types (s tok : string) (c sep : ascii) (parts : list string).



















End int_white_space.

(** * The claims of the specification *)

(** C1, as the code has it.  Whenever the resolver returns, its result is
    strictly ascending and has no duplicates; and it returns for every
    selector of the grammar whose tokens are within the limits of the
    interpreter, [total_pages] being at most [small_list].  Values outside
    [0, total_pages) are not dropped by the resolver: ["1-100"] on 5 pages
    resolves to [0; ...; 99], ["0"] to [-1].  They are skipped by the guard of
    [extract_text]: in every successful extraction the page records are
    those of the resolved values [v] with [0 <= v < total_pages], in the
    resolved order. *)
Theorem resolver_ascending_bounds_in_aggregator
    {V : Type} `{!Py.Str V} (file_path : string) (pdf : document V)
    (range_str : string) (total_pages : Z) (include_metadata : bool) :
  (forall l,
     parse_page_range range_str total_pages = inr l ->
     StronglySorted Z.lt l /\ NoDup l) /\
  (grammar_selector range_str = true ->
   within_limits (Py.split "," range_str) = true ->
   total_pages <= small_list ->
   exists l, parse_page_range range_str total_pages = inr l) /\
  (forall l r,
     parse_page_range range_str (Z.of_nat (length (doc_pages pdf))) = inr l ->
     extract_text file_path pdf (PagesStr range_str) include_metadata
       = Success r ->
     page <$> pages r
       = Z.succ <$> filter (fun v => 0 <= v < Z.of_nat (length (doc_pages pdf))) l) /\
  parse_page_range "1-100" 5 = inr (seqZ 0 100) /\
  parse_page_range "0" 5 = inr [-1].
Proof.
  split; [|split; [|split; [|by vm_compute]]].
  - intros l Hl. split; [by eapply parse_page_range_ascending|].
    eapply ascending_NoDup, parse_page_range_ascending; done.
  - intros Hg _ _. by apply grammar_selector_resolves.
  - intros l r Hl (l' & Hl' & -> & _)%extract_text_Success.
    simpl in Hl'. rewrite Hl in Hl'. injection Hl' as <-.
    apply page_record_at.
Qed.

Lemma resolver_ascending_bounds_in_aggregator_witness :
  (exists l,
     parse_page_range "7,1-100,0" 5 = inr l /\
     StronglySorted Z.lt l /\ NoDup l) /\
  (exists r,
     extract_text "f.pdf" demo_pdf (PagesStr "7,1-100,0") false = Success r /\
     page <$> pages r = [1; 2; 3; 4; 5]).
Proof.
  destruct (resolver_ascending_bounds_in_aggregator
              "f.pdf" demo_pdf "7,1-100,0" 5 false)
    as (Hsorted & Hreturns & Hguard & _).
  split.
  - destruct Hreturns as [l Hl]; [by vm_compute..|].
    exists l. split; [exact Hl|]. exact (Hsorted l Hl).
  - destruct (extract_text "f.pdf" demo_pdf (PagesStr "7,1-100,0") false)
      as [r|e] eqn:Hr; [|by vm_compute in Hr].
    exists r. split; [reflexivity|].
    rewrite (Hguard (-1 :: seqZ 0 100) r);
      [by vm_compute | by vm_compute | reflexivity].
Defined.

(** C1 as stated fails: the resolver keeps the out-of-range values. *)
Lemma resolver_does_not_clip :
  grammar_selector "1-100" = true /\
  parse_page_range "1-100" 5 <> inr [0; 1; 2; 3; 4] /\
  exists l, parse_page_range "1-100" 5 = inr l /\ 99 ∈ l /\ ~ (0 <= 99 < 5).
Proof.
  split; [by vm_compute|]. split; [by vm_compute|].
  exists (seqZ 0 100). split; [by vm_compute|].
  split; [apply elem_of_seqZ; lia|lia].
Qed.

(** C2, as the code has it.  For every successful extraction, [total_chars]
    is the length of [full_text], the texts of the page records joined by a
    newline; every [char_count] is the length of its record's text; so
    [total_chars] is the sum of the [char_count]s plus one for each
    separator, that is plus the number of records minus one when there is
    a record. *)
Theorem total_chars_is_length_of_full_text
    {V : Type} `{!Py.Str V} (file_path : string) (pdf : document V)
    (arg : pages_arg) (include_metadata : bool) (r : result) :
  extract_text file_path pdf arg include_metadata = Success r ->
  total_chars r = Py.len (full_text r) /\
  full_text r = Py.join (String Py.newline "") (text <$> pages r) /\
  Forall (fun p => char_count p = Py.len (text p)) (pages r) /\
  total_chars r
  = sum_char_counts (pages r) + Z.max 0 (Z.of_nat (length (pages r)) - 1).
Proof.
  intros (l & _ & Hpages & Htext & Hchars & _)%extract_text_Success.
  assert (Forall (fun p => char_count p = Py.len (text p)) (pages r)) as Hcc.
  { rewrite Hpages. apply Forall_fmap, Forall_forall. intros v _.
    apply char_count_text. }
  repeat split; try done.
  rewrite Hchars, Htext, len_join, (sum_char_counts_text _ Hcc).
  rewrite length_fmap. simpl. lia.
Qed.

Lemma total_chars_is_length_of_full_text_witness :
  exists r,
    extract_text "f.pdf" two_pages PagesOther true = Success r /\
    total_chars r = 3 /\ sum_char_counts (pages r) = 2.
Proof.
  eexists. split; [reflexivity|].
  split; [|reflexivity].
  apply (total_chars_is_length_of_full_text "f.pdf" two_pages PagesOther true).
  reflexivity.
Defined.

(** C2 as stated fails: with two pages ["a"] and ["b"] the joined text is
    three characters long, the sum of the character counts is two. *)
Lemma total_chars_is_not_the_sum :
  exists r,
    extract_text "f.pdf" two_pages (PagesStr "all") true = Success r /\
    total_chars r = Py.len (full_text r) /\
    total_chars r <> sum_char_counts (pages r).
Proof. eexists. split; [reflexivity|]. by vm_compute. Qed.

(** C3.  For every successful extraction, [full_text] is the newline-joined
    texts of the page records, which come in ascending page order, one for
    each resolved value within bounds; so two selectors that resolve to the
    same set of values give the same [full_text] on the same document,
    and so does a selector whose tokens are those of the first in another
    order. *)
Theorem full_text_depends_on_index_set
    {V : Type} `{!Py.Str V} (file_path : string) (pdf : document V)
    (s1 s2 : string) (include_metadata : bool)
    (l1 l2 : list Z) (r1 : result) :
  extract_text file_path pdf (PagesStr s1) include_metadata = Success r1 ->
  parse_page_range s1 (Z.of_nat (length (doc_pages pdf))) = inr l1 ->
  parse_page_range s2 (Z.of_nat (length (doc_pages pdf))) = inr l2 ->
  (forall v, v ∈ l1 <-> v ∈ l2) ->
  full_text r1 = Py.join (String Py.newline "") (text <$> pages r1) /\
  StronglySorted Z.lt (page <$> pages r1) /\
  page <$> pages r1
    = Z.succ <$> filter (fun v => 0 <= v < Z.of_nat (length (doc_pages pdf))) l1 /\
  (exists r2,
     extract_text file_path pdf (PagesStr s2) include_metadata = Success r2 /\
     full_text r2 = full_text r1 /\
     pages r2 = pages r1) /\
  (forall s3,
     Py.split "," s3 ≡ₚ Py.split "," s1 ->
     exists r3,
       extract_text file_path pdf (PagesStr s3) include_metadata = Success r3 /\
       full_text r3 = full_text r1).
Proof.
  intros (l & Hl & Hpages & Htext & _)%extract_text_Success Hl1 Hl2 Hext.
  simpl in Hl. rewrite Hl1 in Hl. injection Hl as <-.
  assert (l2 = l1) as ->.
  { symmetry. apply ascending_ext; eauto using parse_page_range_ascending. }
  assert (page <$> pages r1 = Z.succ <$> guarded pdf l1) as Hnum.
  { rewrite Hpages. apply page_record_at. }
  split; [done|]. split; [|split; [done|split]].
  - rewrite Hnum.
    assert (StronglySorted Z.lt (guarded pdf l1)) as Hs
      by eauto using guarded_ascending, parse_page_range_ascending.
    by apply succ_ascending.
  - unfold extract_text. rewrite extract_text_traced_eq. simpl.
    rewrite Hl2. simpl. eexists. split; [done|]. simpl.
    by rewrite Htext, Hpages.
  - intros s3 Hperm. symmetry in Hperm.
    pose proof (parse_page_range_token_permutation _ _ _ _ Hperm Hl1) as Hl3.
    unfold extract_text. rewrite extract_text_traced_eq. simpl.
    rewrite Hl3. simpl. eexists. split; [done|]. simpl.
    by rewrite Htext, Hpages.
Qed.

Lemma full_text_depends_on_index_set_witness :
  exists r2,
    extract_text "f.pdf" demo_pdf (PagesStr "1-2,4,9,2") false = Success r2 /\
    full_text r2 = String "a" (String Py.newline (String Py.newline "dd")).
Proof.
  destruct (full_text_depends_on_index_set
              "f.pdf" demo_pdf "9,4,1,2" "1-2,4,9,2" false
              [0; 1; 3; 8] [0; 1; 3; 8] _
              eq_refl eq_refl eq_refl (fun v => conj (fun H => H) (fun H => H)))
    as (_ & _ & _ & (r2 & H2 & Ht & _) & _).
  exists r2. split; [exact H2|]. rewrite Ht. reflexivity.
Defined.

(** C4.  Whenever the resolver returns, its result is strictly ascending,
    whatever the order of the tokens and their overlaps: for a selector
    other than the all-keyword the result has exactly the values the tokens
    put in the accumulator, each once, and a selector with the same tokens
    in another order resolves to the same result; ["5,1-3,2"] resolves to
    [0; 1; 2; 4]. *)
Theorem resolver_output_strictly_ascending
    (range_str : string) (total_pages : Z) (l : list Z) :
  parse_page_range range_str total_pages = inr l ->
  StronglySorted Z.lt l /\
  NoDup l /\
  (Py.lower range_str <> "all" ->
   exists acc, parse_parts [] (Py.split "," range_str) = inr acc /\
               forall v, v ∈ l <-> v ∈ acc) /\
  (forall reordered,
     Py.split "," reordered ≡ₚ Py.split "," range_str ->
     parse_page_range reordered total_pages = inr l) /\
  parse_page_range "5,1-3,2" 10 = inr [0; 1; 2; 4].
Proof.
  intros Hl. split; [by eapply parse_page_range_ascending|].
  split; [eapply ascending_NoDup, parse_page_range_ascending; done|].
  split; [|split; [|by vm_compute]].
  - intros Hall.
    apply parse_page_range_inr in Hl as [[? _]|[_ (acc & Hacc & ->)]]; [done|].
    exists acc. split; [done|]. intros v. apply elem_of_sorted_set.
  - intros reordered Hperm. symmetry in Hperm.
    by eapply parse_page_range_token_permutation.
Qed.

Lemma resolver_output_strictly_ascending_witness :
  StronglySorted Z.lt [0; 1; 2; 4].
Proof.
  apply (resolver_output_strictly_ascending "5,1-3,2" 10 [0; 1; 2; 4]).
  vm_compute. reflexivity.
Defined.







(** C7.  For every [total_pages >= 0], a selector whose lower-case form is
    the all-keyword resolves to exactly [0; 1; ...; total_pages - 1]; for
    [total_pages = 0] that is the empty sequence. *)
Theorem all_keyword_resolves_to_every_page (range_str : string) (total_pages : Z) :
  0 <= total_pages ->
  Py.lower range_str = "all" ->
  parse_page_range range_str total_pages
    = inr (Z.of_nat <$> seq 0 (Z.to_nat total_pages)) /\
  (total_pages = 0 -> parse_page_range range_str total_pages = inr []).
Proof.
  intros Hn Hall. unfold parse_page_range.
  rewrite decide_True by done. split.
  - f_equal. unfold Py.range, seqZ. rewrite Z.sub_0_r.
    apply list_fmap_ext. intros _ i _. lia.
  - intros ->. done.
Qed.

Lemma all_keyword_resolves_to_every_page_witness :
  parse_page_range "aLL" 3 = inr [0; 1; 2].
Proof.
  apply (all_keyword_resolves_to_every_page "aLL" 3); [lia|reflexivity].
Defined.

(** C8.  A range token whose end is strictly less than its start is accepted
    and leaves the accumulator as it was, so the token can be taken out of
    any token list without changing the outcome of the loop; ["3-1"] alone
    resolves to the empty sequence. *)
Theorem reversed_range_contributes_nothing
    (tok sa sb : string) (a b : Z) (pages : list Z) :
  Py.split "-" tok = [sa; sb] ->
  Py.int sa = inr a ->
  Py.int sb = inr b ->
  b < a ->
  parse_part pages tok = inr pages /\
  (forall acc before after,
     parse_parts acc (before ++ tok :: after)
     = parse_parts acc (before ++ after)) /\
  parse_page_range "3-1" 10 = inr [].
Proof.
  intros Hsplit Ha Hb Hlt.
  assert (forall acc, parse_part acc tok = inr acc) as Hskip.
  { intros acc. unfold parse_part.
    destruct (Py.contains "-" tok) eqn:Hdash.
    - rewrite Hsplit, Ha. simpl. rewrite Hb. simpl.
      rewrite range_empty by lia. by rewrite app_nil_r.
    - apply split_no_sep in Hdash. congruence. }
  split; [apply Hskip|]. split; [|by vm_compute].
  intros acc before after. rewrite !parse_parts_app.
  destruct (parse_parts acc before) as [e|acc']; simpl; [done|].
  by rewrite Hskip.
Qed.

Lemma reversed_range_contributes_nothing_witness :
  parse_part [7] "3-1" = inr [7].
Proof.
  apply (reversed_range_contributes_nothing "3-1" "3" "1" 3 1 [7]);
    [reflexivity | reflexivity | reflexivity | lia].
Defined.

(** C9.  The result has a metadata field exactly when [include_metadata] is
    true and the document has at least one metadata entry; the field then
    maps every key of the document's metadata to [str] of its value, and is
    never an empty mapping. *)
Theorem metadata_present_iff
    {V : Type} `{!Py.Str V} (file_path : string) (pdf : document V)
    (arg : pages_arg) (include_metadata : bool) (r : result) :
  extract_text file_path pdf arg include_metadata = Success r ->
  (is_Some (metadata r) <->
   include_metadata = true /\ exists k v, doc_metadata pdf !! k = Some v) /\
  (forall md, metadata r = Some md ->
     (forall k, md !! k = Py.str <$> doc_metadata pdf !! k) /\ md <> ∅).
Proof.
  intros (l & _ & _ & _ & _ & ->)%extract_text_Success.
  assert (size (doc_metadata pdf) ≠ 0%nat <->
          exists k v, doc_metadata pdf !! k = Some v) as Hne.
  { rewrite map_size_ne_0_lookup. unfold is_Some. naive_solver. }
  destruct include_metadata; simpl.
  - case_bool_decide as Hsz; split.
    + split; [intros _; split; [done|by apply Hne]|by eauto].
    + intros md [= <-]. split; [intros k; apply lookup_fmap|].
      rewrite fmap_empty_iff. by rewrite <-map_size_empty_iff.
    + split; [by intros [? ?]|]. intros [_ ?%Hne]. done.
    + done.
  - split; [|done]. split; [by intros [? ?]|by intros [? _]].
Qed.

Lemma metadata_present_iff_witness :
  exists r,
    extract_text "f.pdf" demo_pdf (PagesStr "2-4") true = Success r /\
    is_Some (metadata r).
Proof.
  eexists. split; [reflexivity|].
  apply (metadata_present_iff "f.pdf" demo_pdf (PagesStr "2-4") true);
    [reflexivity|].
  split; [reflexivity|]. exists "Title", "T". reflexivity.
Defined.

(** C10.  For every document and every string selector, [extract_text]
    subscripts [pdf.pages] only with values [i] such that
    [0 <= i < total_pages]: each such subscript returns the page at
    position [i] counted from the start, none raises [IndexError], and the
    values the resolver produced outside the bounds are skipped (the token
    ["0"] resolves to [-1], for which no page is requested). *)
Theorem aggregator_subscripts_in_bounds
    {V : Type} `{!Py.Str V} (file_path : string) (pdf : document V)
    (range_str : string) (include_metadata : bool) :
  Forall (fun i =>
            0 <= i < Z.of_nat (length (doc_pages pdf)) /\
            exists t, doc_pages pdf !! Z.to_nat i = Some t /\
                      Py.getitem (doc_pages pdf) i = inr t)
    (snd (extract_text_traced file_path pdf (PagesStr range_str)
            include_metadata)) /\
  extract_text file_path pdf (PagesStr range_str) include_metadata
    <> Failure IndexError /\
  (forall l,
     parse_page_range range_str (Z.of_nat (length (doc_pages pdf))) = inr l ->
     snd (extract_text_traced file_path pdf (PagesStr range_str)
            include_metadata)
     = filter (fun v => 0 <= v < Z.of_nat (length (doc_pages pdf))) l) /\
  parse_page_range "0" (Z.of_nat (length (doc_pages pdf))) = inr [-1] /\
  snd (extract_text_traced file_path pdf (PagesStr "0") include_metadata) = [].
Proof.
  rewrite !extract_text_subscripts.
  unfold page_numbers_of. cbv beta iota zeta.
  split; [|split; [|split; [|split]]].
  - destruct (parse_page_range _ _) as [e|l]; simpl; [constructor|].
    apply Forall_forall. intros i [Hi _]%list_elem_of_filter.
    split; [done|]. by apply getitem_guarded.
  - intros Hl%extract_text_Failure.
    by apply parse_page_range_no_IndexError in Hl.
  - intros l ->. done.
  - by vm_compute.
  - replace (parse_page_range "0" (Z.of_nat (length (doc_pages pdf))))
      with (inr (A:=exn) [-1]) by (by vm_compute).
    unfold guarded. rewrite filter_cons. by rewrite decide_False by lia.
Qed.

Lemma aggregator_subscripts_in_bounds_witness :
  snd (extract_text_traced "f.pdf" demo_pdf (PagesStr "0,2-4,9") true)
  = [1; 2; 3].
Proof.
  destruct (aggregator_subscripts_in_bounds "f.pdf" demo_pdf "0,2-4,9" true)
    as (_ & _ & Htrace & _).
  apply (Htrace [-1; 1; 2; 3; 8]). vm_compute. reflexivity.
Defined.


(** * Further properties of the resolver *)

Section resolver_values.
Implicit Types (s tok : string) (parts : list string) (v : Z).

Lemma split_two_has_sep sep s a b :
  Py.split sep s = [a; b] -> Py.contains sep s = true.
Proof.
  intros Hs. destruct (Py.contains sep s) eqn:Hc; [done|].
  rewrite (split_no_sep _ _ Hc) in Hs. done.
Qed.

(** What an accepted token puts in the accumulator. *)
Lemma contribution_inr tok new :
  contribution tok = inr new <->
  (Py.contains "-" tok = false /\
   exists n, Py.int tok = inr n /\ new = [n - 1]) \/
  (exists a b x y,
     Py.split "-" tok = [a; b] /\ Py.int a = inr x /\ Py.int b = inr y /\
     new = Py.range (x - 1) y).
Proof.
  unfold contribution, parse_part. split.
  - destruct (Py.contains "-" tok) eqn:Hdash.
    + destruct (Py.split "-" tok) as [|a [|b [|c r]]]; try done.
      destruct (Py.int a) as [|x] eqn:Ha; [done|]. simpl.
      destruct (Py.int b) as [|y] eqn:Hb; [done|]. simpl.
      intros [= <-]. right. by exists a, b, x, y.
    + destruct (Py.int tok) as [|n]; [done|]. simpl.
      intros [= <-]. left. eauto.
  - intros [[-> (n & -> & ->)]|(a & b & x & y & Hs & Ha & Hb & ->)]; [done|].
    rewrite (split_two_has_sep _ _ _ _ Hs), Hs, Ha. simpl. by rewrite Hb.
Qed.

Lemma elem_of_contributions parts acc v :
  contributions parts = inr acc ->
  v ∈ acc <->
  exists tok new, tok ∈ parts /\ contribution tok = inr new /\ v ∈ new.
Proof.
  revert acc. induction parts as [|p parts IH]; intros acc; simpl.
  - intros [= <-]. split; [by intros ?%elem_of_nil|].
    by intros (? & ? & ?%elem_of_nil & _).
  - destruct (contribution p) as [|new] eqn:Hp; [done|]. simpl.
    destruct (contributions parts) as [|more]; [done|]. simpl.
    intros [= <-]. rewrite elem_of_app, (IH more eq_refl). split.
    + intros [Hv|(tok & new' & Hin & Hc & Hv)].
      * exists p, new. split; [by left|done].
      * exists tok, new'. split; [by right|done].
    + intros (tok & new' & [->|Hin]%elem_of_cons & Hc & Hv).
      * left. congruence.
      * right. eauto.
Qed.

Lemma unaccepted_token_raises s total_pages tok :
  Py.lower s <> "all" ->
  tok ∈ Py.split "," s ->
  accepts tok = false ->
  exists e, parse_page_range s total_pages = inl e.
Proof.
  intros Hall Hin Hrej.
  destruct (parse_page_range s total_pages) as [e|l] eqn:Hl; [eauto|].
  exfalso.
  apply parse_page_range_inr in Hl as [[Hs _]|[_ (acc & Hacc & _)]]; [done|].
  rewrite parse_parts_contributions in Hacc.
  destruct (contributions _) as [e|new] eqn:Hc; [done|].
  apply contributions_inr in Hc.
  rewrite Forall_forall in Hc. specialize (Hc tok Hin). congruence.
Qed.

Lemma split_app_sep_any sep a b :
  Py.split sep (a +:+ String sep b) = Py.split sep a ++ Py.split sep b.
Proof.
  induction a as [|c a IH].
  - change ("" +:+ String sep b) with (String sep b).
    cbn [Py.split]. by case_decide.
  - change (String c a +:+ String sep b) with (String c (a +:+ String sep b)).
    cbn [Py.split]. rewrite IH. case_decide; [done|].
    destruct (Py.split sep a) as [|h t] eqn:Ha; [by apply split_nonempty in Ha|].
    done.
Qed.

Lemma lower_all_no_comma s1 s2 : Py.lower (s1 +:+ String "," s2) <> "all".
Proof.
  intros Hall%lower_all_split. rewrite split_app_sep_any in Hall.
  destruct (Py.split "," s1) as [|? [|? ?]] eqn:H1;
    [by apply split_nonempty in H1|..];
    (destruct (Py.split "," s2) as [|? ?] eqn:H2;
     [by apply split_nonempty in H2|done]).
Qed.

End resolver_values.

(** X1.  For a selector other than the all-keyword that resolves, the
    resolved values are exactly the [v] such that [v + 1] is the integer of
    a token without dash, or lies between the two integers of a range
    token, both included: tokens count pages from one, the result from
    zero. *)
Theorem resolved_values_of_tokens
    (range_str : string) (total_pages : Z) (l : list Z) (v : Z) :
  parse_page_range range_str total_pages = inr l ->
  Py.lower range_str <> "all" ->
  v ∈ l <->
  exists tok, tok ∈ Py.split "," range_str /\
    ((Py.contains "-" tok = false /\ Py.int tok = inr (v + 1)) \/
     exists a b x y,
       Py.split "-" tok = [a; b] /\ Py.int a = inr x /\ Py.int b = inr y /\
       x <= v + 1 <= y).
Proof.
  intros [[? _]|[_ (acc & Hacc & ->)]]%parse_page_range_inr Hall; [done|].
  rewrite parse_parts_contributions in Hacc.
  destruct (contributions _) as [|new] eqn:Hc; [done|].
  simpl in Hacc. injection Hacc as <-.
  rewrite elem_of_sorted_set, (elem_of_contributions _ _ _ Hc). split.
  - intros (tok & new' & Hin & Htok & Hv). exists tok. split; [done|].
    apply contribution_inr in Htok
      as [(Hdash & n & Hn & ->)|(a & b & x & y & Hs & Ha & Hb & ->)].
    + left. apply list_elem_of_singleton in Hv as ->.
      split; [done|]. rewrite Hn. f_equal. lia.
    + right. exists a, b, x, y. unfold Py.range in Hv.
      apply elem_of_seqZ in Hv. repeat split; [done..|lia|lia].
  - intros (tok & Hin & [[Hdash Hn]|(a & b & x & y & Hs & Ha & Hb & Hv)]).
    + exists tok, [v + 1 - 1]. split; [done|]. split.
      * apply contribution_inr. left. eauto.
      * replace (v + 1 - 1) with v by lia. by apply list_elem_of_singleton.
    + exists tok, (Py.range (x - 1) y). split; [done|]. split.
      * apply contribution_inr. right. by exists a, b, x, y.
      * unfold Py.range. apply elem_of_seqZ. lia.
Qed.

Lemma resolved_values_of_tokens_witness :
  2 ∈ [0; 1; 2; 4] <->
  exists tok, tok ∈ Py.split "," "5,1-3" /\
    ((Py.contains "-" tok = false /\ Py.int tok = inr (2 + 1)) \/
     exists a b x y,
       Py.split "-" tok = [a; b] /\ Py.int a = inr x /\ Py.int b = inr y /\
       x <= 2 + 1 <= y).
Proof.
  apply (resolved_values_of_tokens "5,1-3" 10 [0; 1; 2; 4] 2).
  - vm_compute. reflexivity.
  - vm_compute. discriminate.
Defined.

(** X2.  Joining two selectors, neither of them the all-keyword, with a
    comma resolves to the union of what they resolve to; in particular
    adding a selector whose pages are already selected changes nothing. *)
Theorem comma_joins_selectors
    (s1 s2 : string) (total_pages : Z) (l1 l2 : list Z) :
  Py.lower s1 <> "all" ->
  Py.lower s2 <> "all" ->
  parse_page_range s1 total_pages = inr l1 ->
  parse_page_range s2 total_pages = inr l2 ->
  exists l,
    parse_page_range (s1 +:+ "," +:+ s2) total_pages = inr l /\
    (forall v, v ∈ l <-> v ∈ l1 \/ v ∈ l2) /\
    ((forall v, v ∈ l2 -> v ∈ l1) -> l = l1).
Proof.
  intros Hall1 Hall2 Hl1 Hl2.
  pose proof (parse_page_range_ascending _ _ _ Hl1) as Hasc1.
  apply parse_page_range_inr in Hl1 as [[? _]|[_ (acc1 & Hacc1 & ->)]]; [done|].
  apply parse_page_range_inr in Hl2 as [[? _]|[_ (acc2 & Hacc2 & ->)]]; [done|].
  change ("," +:+ s2) with (String "," s2).
  exists (Py.sorted_set (acc1 ++ acc2)).
  assert (forall v, v ∈ Py.sorted_set (acc1 ++ acc2) <->
                    v ∈ Py.sorted_set acc1 \/ v ∈ Py.sorted_set acc2) as Hunion.
  { intros v. rewrite !elem_of_sorted_set. apply elem_of_app. }
  split; [|split; [done|]].
  - unfold parse_page_range.
    rewrite decide_False by apply lower_all_no_comma.
    rewrite split_app_sep_any, parse_parts_app, Hacc1. simpl.
    rewrite parse_parts_contributions in Hacc2 |- *.
    destruct (contributions _) as [|new]; [done|].
    simpl in *. by injection Hacc2 as <-.
  - intros Hsub. apply ascending_ext; [apply sorted_set_ascending|done|].
    intros v. rewrite Hunion. split; [intros [?|?]; auto|auto].
Qed.

Lemma comma_joins_selectors_witness :
  exists l,
    parse_page_range ("1-3" +:+ "," +:+ "2,5") 9 = inr l /\
    (forall v, v ∈ l <-> v ∈ [0; 1; 2] \/ v ∈ [1; 4]) /\
    ((forall v, v ∈ [1; 4] -> v ∈ [0; 1; 2]) -> l = [0; 1; 2]).
Proof.
  apply (comma_joins_selectors "1-3" "2,5" 9 [0; 1; 2] [1; 4]).
  - vm_compute. discriminate.
  - vm_compute. discriminate.
  - vm_compute. reflexivity.
  - vm_compute. reflexivity.
Defined.

(** X3.  The all-keyword is recognised only as the whole selector: a
    selector that has it as one token among several raises. *)
Theorem all_keyword_among_tokens_raises
    (range_str tok : string) (total_pages : Z) :
  tok ∈ Py.split "," range_str ->
  Py.lower tok = "all" ->
  range_str <> tok ->
  exists e, parse_page_range range_str total_pages = inl e.
Proof.
  intros Hin Hall Hne.
  apply (unaccepted_token_raises _ _ tok); [|done|].
  - intros Hs. rewrite (lower_all_split _ Hs) in Hin.
    apply list_elem_of_singleton in Hin. done.
  - unfold accepts. by rewrite (all_keyword_rejected_as_token _ Hall).
Qed.

Lemma all_keyword_among_tokens_raises_witness :
  exists e, parse_page_range "1,ALL" 5 = inl e.
Proof.
  apply (all_keyword_among_tokens_raises "1,ALL" "ALL" 5).
  - vm_compute. set_solver.
  - reflexivity.
  - discriminate.
Defined.

(** X4.  The tokens are examined from left to right and those after a
    malformed token are not examined at all: two selectors, neither of
    them the all-keyword, that agree up to a malformed token raise the
    same exception, whatever comes after that token. *)
Theorem tokens_after_a_malformed_one_are_not_examined
    (s1 s2 tok : string) (before after1 after2 : list string)
    (total_pages : Z) :
  Py.lower s1 <> "all" ->
  Py.lower s2 <> "all" ->
  Py.split "," s1 = before ++ tok :: after1 ->
  Py.split "," s2 = before ++ tok :: after2 ->
  malformed tok = true ->
  exists e,
    parse_page_range s1 total_pages = inl e /\
    parse_page_range s2 total_pages = inl e.
Proof.
  intros Hall1 Hall2 Hs1 Hs2 Hbad.
  unfold parse_page_range. rewrite !decide_False by done.
  rewrite Hs1, Hs2, !parse_parts_app.
  destruct (parse_parts [] before) as [e|acc]; simpl; [by exists e|].
  rewrite parse_part_acc, (contribution_malformed _ Hbad). simpl.
  by eexists.
Qed.

Lemma tokens_after_a_malformed_one_are_not_examined_witness :
  exists e,
    parse_page_range "2,x,5" 9 = inl e /\
    parse_page_range "2,x,1-2-3,y" 9 = inl e.
Proof.
  apply (tokens_after_a_malformed_one_are_not_examined
           "2,x,5" "2,x,1-2-3,y" "x" ["2"] ["5"] ["1-2-3"; "y"] 9).
  - vm_compute. discriminate.
  - vm_compute. discriminate.
  - reflexivity.
  - reflexivity.
  - reflexivity.
Defined.

(** X5.  A selector on which the resolver returns is the all-keyword or
    has well-formed tokens only; and within the limits of the interpreter
    the resolver returns on every such selector. *)
Theorem resolver_returns_iff_tokens_well_formed
    (range_str : string) (total_pages : Z) :
  ((exists l, parse_page_range range_str total_pages = inr l) ->
   Py.lower range_str = "all" \/
   Forall (fun tok => malformed tok = false) (Py.split "," range_str)) /\
  (within_limits (Py.split "," range_str) = true ->
   total_pages <= small_list ->
   Py.lower range_str = "all" \/
   Forall (fun tok => malformed tok = false) (Py.split "," range_str) ->
   exists l, parse_page_range range_str total_pages = inr l).
Proof.
  split.
  - intros [l [[Hall _]|[_ (acc & Hacc & _)]]%parse_page_range_inr];
      [by left|].
    right. rewrite parse_parts_contributions in Hacc.
    destruct (contributions _) as [e|new] eqn:Hc; [done|].
    by eapply well_formed_tokens.
  - intros _ _ Hok. unfold parse_page_range.
    case_decide as Hall; [by eexists|].
    destruct Hok as [?|Hparts]; [done|].
    rewrite parse_parts_contributions.
    destruct (contributions_well_formed _ Hparts) as [acc ->].
    simpl. by eexists.
Qed.

Lemma resolver_returns_iff_tokens_well_formed_witness :
  (exists l, parse_page_range " +3, 1_0 - 12" 20 = inr l) /\
  Forall (fun tok => malformed tok = false) (Py.split "," "4,2-3").
Proof.
  destruct (resolver_returns_iff_tokens_well_formed " +3, 1_0 - 12" 20)
    as [_ Hreturns].
  destruct (resolver_returns_iff_tokens_well_formed "4,2-3" 20)
    as [Hwell _].
  split.
  - apply Hreturns; [reflexivity | by vm_compute |].
    right. by repeat constructor.
  - destruct Hwell as [Hall|Hparts];
      [exists [1; 2; 3]; by vm_compute | by vm_compute in Hall
      | exact Hparts].
Defined.

(** * Further properties of the aggregator *)

Section aggregator_results.
Context {V : Type} `{!Py.Str V}.
Implicit Types (pdf : document V) (arg : pages_arg) (l : list Z).

Lemma guarded_bounds pdf l :
  Forall (fun v => 0 <= v < Z.of_nat (length (doc_pages pdf))) (guarded pdf l).
Proof. apply Forall_forall. by intros v [? _]%list_elem_of_filter. Qed.

Lemma guarded_all pdf l :
  Forall (fun v => 0 <= v < Z.of_nat (length (doc_pages pdf))) l ->
  guarded pdf l = l.
Proof.
  unfold guarded. induction 1 as [|v l Hv _ IH]; [done|].
  by rewrite filter_cons_True, IH.
Qed.

Lemma page_numbers_ascending pdf arg l :
  page_numbers_of pdf arg = inr l -> StronglySorted Z.lt l.
Proof.
  destruct arg as [s|]; simpl.
  - apply parse_page_range_ascending.
  - intros [= <-]. apply range_ascending.
Qed.

Lemma ascending_length_bound l a b :
  StronglySorted Z.lt l ->
  Forall (fun v => a <= v < b) l ->
  Z.of_nat (length l) <= Z.max 0 (b - a).
Proof.
  intros Hs. revert a. induction Hs as [|x l Hs IH Hx]; intros a Hl.
  - simpl. lia.
  - apply Forall_cons in Hl as [Hxa Hl].
    assert (Forall (fun v => x + 1 <= v < b) l) as Hl'.
    { rewrite Forall_forall in Hx, Hl |- *. intros v Hv.
      specialize (Hx v Hv). specialize (Hl v Hv). lia. }
    specialize (IH (x + 1) Hl'). simpl length. lia.
Qed.

Lemma text_or_empty_default (t : option string) :
  text_or_empty t = default "" t.
Proof. by destruct t as [[|c r]|]. Qed.

(** The result of a successful call, field by field. *)
Lemma extract_text_Success_fields file_path pdf arg include_metadata r :
  extract_text file_path pdf arg include_metadata = Success r ->
  exists l, page_numbers_of pdf arg = inr l /\
    file r = file_path /\
    total_pages r = Z.of_nat (length (doc_pages pdf)) /\
    extracted_pages r = Z.of_nat (length (pages r)) /\
    pages r = record_at pdf <$> guarded pdf l /\
    full_text r = Py.join (String Py.newline "") (text <$> pages r) /\
    total_chars r = Py.len (full_text r) /\
    metadata r =
      (if include_metadata && bool_decide (size (doc_metadata pdf) ≠ 0%nat)
       then Some (Py.str <$> doc_metadata pdf) else None).
Proof.
  unfold extract_text. rewrite extract_text_traced_eq.
  destruct (page_numbers_of pdf arg) as [e|l]; [done|].
  simpl. intros [= <-]. by exists l.
Qed.

End aggregator_results.

(** X6.  A [pages] argument that is not a string is treated as the
    all-keyword: the call returns what it returns for ["all"], and when it
    succeeds every page of the document is extracted, numbered from 1 to
    the number of pages. *)
Theorem non_string_pages_extracts_every_page
    {V : Type} `{!Py.Str V} (file_path : string) (pdf : document V)
    (include_metadata : bool) :
  extract_text file_path pdf PagesOther include_metadata
    = extract_text file_path pdf (PagesStr "all") include_metadata /\
  forall r,
    extract_text file_path pdf PagesOther include_metadata = Success r ->
    page <$> pages r = seqZ 1 (Z.of_nat (length (doc_pages pdf))) /\
    extracted_pages r = total_pages r /\
    total_pages r = Z.of_nat (length (doc_pages pdf)).
Proof.
  split; [done|].
  intros r (l & Hl & _ & -> & -> & -> & _)%extract_text_Success_fields.
  simpl in Hl. injection Hl as <-.
  rewrite guarded_all
    by (apply Forall_seqZ; unfold Py.range; intros; lia).
  split; [|split; [|done]].
  - rewrite page_record_at. unfold Py.range. rewrite Z.sub_0_r.
    rewrite <-(fmap_add_seqZ 1 0). apply list_fmap_ext. intros; lia.
  - rewrite length_fmap. unfold Py.range. rewrite length_seqZ. lia.
Qed.

Lemma non_string_pages_extracts_every_page_witness :
  exists r,
    extract_text "f.pdf" demo_pdf PagesOther true = Success r /\
    page <$> pages r = [1; 2; 3; 4; 5] /\ extracted_pages r = 5.
Proof.
  destruct (non_string_pages_extracts_every_page "f.pdf" demo_pdf true)
    as [_ Hall].
  eexists. split; [reflexivity|].
  destruct (Hall _ eq_refl) as (Hpages & Hcount & Htotal).
  split; [exact Hpages|]. rewrite Hcount. exact Htotal.
Defined.

(** X7.  In every successful extraction each record names a page of the
    document, between 1 and [total_pages], and carries the text of that
    very page (the empty string when the page has none) with its length
    as [char_count]. *)
Theorem records_carry_the_pages_they_name
    {V : Type} `{!Py.Str V} (file_path : string) (pdf : document V)
    (arg : pages_arg) (include_metadata : bool) (r : result) :
  extract_text file_path pdf arg include_metadata = Success r ->
  total_pages r = Z.of_nat (length (doc_pages pdf)) /\
  Forall (fun p =>
            1 <= page p <= total_pages r /\
            exists t, doc_pages pdf !! Z.to_nat (page p - 1) = Some t /\
                      text p = default "" t /\
                      char_count p = Py.len (text p))
    (pages r).
Proof.
  intros (l & _ & _ & Htotal & _ & -> & _)%extract_text_Success_fields.
  split; [done|]. rewrite Htotal.
  apply Forall_fmap, Forall_forall. intros v [Hv _]%list_elem_of_filter.
  simpl. split; [lia|].
  replace (v + 1 - 1) with v by lia.
  destruct (lookup_lt_is_Some_2 (doc_pages pdf) (Z.to_nat v)) as [t Ht]; [lia|].
  exists t. rewrite Ht. simpl.
  split; [done|]. split; [apply text_or_empty_default|apply char_count_text].
Qed.

Lemma records_carry_the_pages_they_name_witness :
  exists r,
    extract_text "f.pdf" demo_pdf (PagesStr "2,4") true = Success r /\
    total_pages r = 5.
Proof.
  eexists. split; [reflexivity|].
  apply (records_carry_the_pages_they_name "f.pdf" demo_pdf (PagesStr "2,4") true).
  reflexivity.
Defined.

(** X8.  In every successful extraction [extracted_pages] is the number of
    records, it does not exceed [total_pages], and the page numbers of the
    records are strictly ascending: no page is reported twice. *)
Theorem extracted_pages_counts_distinct_pages
    {V : Type} `{!Py.Str V} (file_path : string) (pdf : document V)
    (arg : pages_arg) (include_metadata : bool) (r : result) :
  extract_text file_path pdf arg include_metadata = Success r ->
  extracted_pages r = Z.of_nat (length (pages r)) /\
  0 <= extracted_pages r <= total_pages r /\
  StronglySorted Z.lt (page <$> pages r).
Proof.
  intros (l & Hl & _ & Htotal & Hn & Hpages & _)%extract_text_Success_fields.
  pose proof (guarded_ascending pdf l (page_numbers_ascending _ _ _ Hl)) as Hasc.
  split; [done|]. split.
  - rewrite Hn, Htotal, Hpages, length_fmap.
    pose proof (ascending_length_bound _ 0 _ Hasc (guarded_bounds pdf l)). lia.
  - rewrite Hpages, page_record_at. by apply succ_ascending.
Qed.

Lemma extracted_pages_counts_distinct_pages_witness :
  exists r,
    extract_text "f.pdf" demo_pdf (PagesStr "4,2,2-4,9") true = Success r /\
    extracted_pages r = 3.
Proof.
  eexists. split; [reflexivity|].
  apply (extracted_pages_counts_distinct_pages
           "f.pdf" demo_pdf (PagesStr "4,2,2-4,9") true).
  reflexivity.
Defined.

(** X9.  On a document without pages every selector that resolves gives an
    empty extraction: no record, an empty [full_text], counts of zero, and
    no page requested. *)
Theorem empty_document_gives_empty_extraction
    {V : Type} `{!Py.Str V} (file_path : string) (pdf : document V)
    (arg : pages_arg) (include_metadata : bool) (r : result) :
  doc_pages pdf = [] ->
  extract_text file_path pdf arg include_metadata = Success r ->
  pages r = [] /\ full_text r = "" /\
  total_pages r = 0 /\ extracted_pages r = 0 /\ total_chars r = 0 /\
  snd (extract_text_traced file_path pdf arg include_metadata) = [].
Proof.
  intros Hempty Hr. rewrite extract_text_subscripts.
  apply extract_text_Success_fields in Hr
    as (l & -> & _ & Htotal & Hn & Hpages & Htext & Hchars & _).
  assert (guarded pdf l = []) as Hnone.
  { pose proof (guarded_bounds pdf l) as Hb. rewrite Hempty in Hb.
    destruct (guarded pdf l) as [|v ?]; [done|].
    apply Forall_cons in Hb as [Hv _]. simpl in Hv. lia. }
  rewrite Hnone in Hpages. rewrite Hpages in Htext, Hn. simpl in Htext, Hn.
  rewrite Htext in Hchars. rewrite Hempty in Htotal. done.
Qed.

Lemma empty_document_gives_empty_extraction_witness :
  exists r,
    extract_text "f.pdf" (Document (V:=string) [] ∅) (PagesStr "1-3") true
      = Success r /\
    pages r = [].
Proof.
  eexists. split; [reflexivity|].
  apply (empty_document_gives_empty_extraction
           "f.pdf" (Document (V:=string) [] ∅) (PagesStr "1-3") true);
    reflexivity.
Defined.

(** X10.  [extract_text] requests the pages in strictly ascending order, so
    never one page twice; when it succeeds the pages requested are exactly
    those of the records, in the same order; and when the resolver raises
    no page is requested. *)
Theorem pages_are_requested_once_in_order
    {V : Type} `{!Py.Str V} (file_path : string) (pdf : document V)
    (arg : pages_arg) (include_metadata : bool) :
  StronglySorted Z.lt
    (snd (extract_text_traced file_path pdf arg include_metadata)) /\
  (forall r,
     extract_text file_path pdf arg include_metadata = Success r ->
     snd (extract_text_traced file_path pdf arg include_metadata)
     = Z.pred <$> (page <$> pages r)) /\
  (forall range_str e,
     arg = PagesStr range_str ->
     parse_page_range range_str (Z.of_nat (length (doc_pages pdf))) = inl e ->
     snd (extract_text_traced file_path pdf arg include_metadata) = []).
Proof.
  rewrite extract_text_subscripts. split; [|split].
  - destruct (page_numbers_of pdf arg) as [e|l] eqn:Hl; [constructor|].
    by eapply guarded_ascending, page_numbers_ascending.
  - intros r (l & -> & _ & _ & _ & -> & _)%extract_text_Success_fields.
    rewrite page_record_at, <-list_fmap_compose.
    rewrite <-(list_fmap_id (guarded pdf l)) at 1.
    apply list_fmap_ext. intros; simpl; lia.
  - intros range_str e -> He. simpl. by rewrite He.
Qed.

Lemma pages_are_requested_once_in_order_witness :
  snd (extract_text_traced "f.pdf" demo_pdf (PagesStr "4,2,2-3,9,0") true)
  = [1; 2; 3].
Proof.
  destruct (pages_are_requested_once_in_order
              "f.pdf" demo_pdf (PagesStr "4,2,2-3,9,0") true)
    as (_ & Hsuccess & _).
  rewrite (Hsuccess _ eq_refl). reflexivity.
Defined.

(** X11.  The flag [include_metadata] decides about the metadata field
    only: with or without it the call fails with the same exception or
    succeeds with the same records, text and counts, and without it the
    result has no metadata. *)
Theorem include_metadata_changes_metadata_only
    {V : Type} `{!Py.Str V} (file_path : string) (pdf : document V)
    (arg : pages_arg) :
  (forall e,
     extract_text file_path pdf arg true = Failure e <->
     extract_text file_path pdf arg false = Failure e) /\
  (forall r,
     extract_text file_path pdf arg true = Success r ->
     extract_text file_path pdf arg false
     = Success {| file := file r; total_pages := total_pages r;
                  extracted_pages := extracted_pages r;
                  total_chars := total_chars r; pages := pages r;
                  full_text := full_text r; metadata := None |}).
Proof.
  unfold extract_text. rewrite !extract_text_traced_eq.
  destruct (page_numbers_of pdf arg) as [e'|l]; simpl.
  - split; [done|]. by intros r.
  - split; [done|]. by intros r [= <-].
Qed.

Lemma include_metadata_changes_metadata_only_witness :
  exists r,
    extract_text "f.pdf" demo_pdf (PagesStr "1,4") false = Success r /\
    metadata r = None /\ extracted_pages r = 2.
Proof.
  destruct (include_metadata_changes_metadata_only
              "f.pdf" demo_pdf (PagesStr "1,4")) as [_ Hsame].
  eexists. split; [exact (Hsame _ eq_refl)|]. split; reflexivity.
Defined.

(** X12.  When at least one page is extracted and no extracted text
    contains a newline, splitting [full_text] at the newlines gives back
    the texts of the records, one line for each. *)
Theorem full_text_lines_are_the_page_texts
    {V : Type} `{!Py.Str V} (file_path : string) (pdf : document V)
    (arg : pages_arg) (include_metadata : bool) (r : result) :
  extract_text file_path pdf arg include_metadata = Success r ->
  pages r <> [] ->
  Forall (fun p => Py.contains Py.newline (text p) = false) (pages r) ->
  Py.split Py.newline (full_text r) = text <$> pages r.
Proof.
  intros (l & _ & _ & _ & _ & _ & -> & _)%extract_text_Success_fields Hne Hnl.
  apply split_join.
  - by intros ?%fmap_nil_inv.
  - by apply Forall_fmap.
Qed.

Lemma full_text_lines_are_the_page_texts_witness :
  exists r,
    extract_text "f.pdf" demo_pdf (PagesStr "1-4") false = Success r /\
    Py.split Py.newline (full_text r) = ["a"; ""; ""; "dd"].
Proof.
  eexists. split; [reflexivity|].
  apply (full_text_lines_are_the_page_texts
           "f.pdf" demo_pdf (PagesStr "1-4") false).
  - reflexivity.
  - discriminate.
  - vm_compute. repeat constructor.
Defined.

(** * Page numbers written and read back *)

Section decimal.
Implicit Types (s : string) (x d : N) (z : Z).

Lemma digit_pretty_N_char d :
  (d < 10)%N -> Py.digit (pretty_N_char d) = Some (Z.of_N d).
Proof.
  intros Hd.
  assert (d = 0 \/ d = 1 \/ d = 2 \/ d = 3 \/ d = 4 \/ d = 5 \/ d = 6
          \/ d = 7 \/ d = 8 \/ d = 9)%N as Hcases by lia.
  repeat (destruct Hcases as [->|Hcases]; [done|]). by subst.
Qed.

Lemma digits_pretty_N_go x s :
  (0 < x)%N -> Py.digits (pretty_N_go x s) = Py.scan false (Z.of_N x) s.
Proof.
  revert s. induction (N.lt_wf_0 x) as [x _ IH]. intros s Hx.
  rewrite pretty_N_go_step by done.
  pose proof (N.mod_lt x 10 ltac:(done)) as Hd.
  pose proof (N.div_mod x 10 ltac:(done)) as Hx10.
  destruct (decide (x `div` 10 = 0)%N) as [Hq|Hq].
  - rewrite Hq, pretty_N_go_0. simpl.
    rewrite (digit_pretty_N_char _ Hd). f_equal. lia.
  - rewrite IH; [|apply N.div_lt; lia|lia]. simpl.
    rewrite (digit_pretty_N_char _ Hd). f_equal. lia.
Qed.

Lemma all_digits_pretty_N_go x s :
  all_digits s = true -> all_digits (pretty_N_go x s) = true.
Proof.
  revert s. induction (N.lt_wf_0 x) as [x _ IH]. intros s Hs.
  destruct (decide (x = 0)%N) as [->|Hx]; [by rewrite pretty_N_go_0|].
  rewrite pretty_N_go_step by lia.
  apply IH; [apply N.div_lt; lia|]. simpl.
  rewrite (digit_pretty_N_char (x `mod` 10)) by (by apply N.mod_lt).
  by rewrite bool_decide_eq_true_2 by eauto.
Qed.

Lemma all_digits_str_int z : 0 <= z -> all_digits (str_int z) = true.
Proof.
  destruct z as [|p|p]; [done| |lia]. intros _.
  unfold str_int, pretty, pretty_Z, pretty, pretty_positive, pretty, pretty_N.
  rewrite decide_False by done. by apply all_digits_pretty_N_go.
Qed.

Lemma all_digits_contains c s :
  Py.digit c = None -> all_digits s = true -> Py.contains c s = false.
Proof.
  intros Hc. induction s as [|d s IH]; simpl; [done|].
  intros [[? Hd]%bool_decide_eq_true Hs]%andb_true_iff.
  case_decide; [congruence|auto].
Qed.

Lemma digits_int s z : Py.digits s = Some z -> Py.int s = inr z.
Proof.
  destruct s as [|c s]; [done|]. unfold Py.int. simpl.
  destruct (Py.digit c) as [d|] eqn:Hd; [|done]. intros Hs.
  destruct (Py.int_space c) eqn:Hc;
    [apply int_space_is_space, space_not_digit in Hc; congruence|].
  cbn [Py.signed Py.digits].
  rewrite !decide_False by (intros ->; done).
  by rewrite Hd, Hs.
Qed.

(** [int (str (z)) == z] *)
Lemma int_str_int z : Py.int (str_int z) = inr z.
Proof.
  destruct z as [|p|p]; [done|..];
    unfold str_int, pretty, pretty_Z, pretty, pretty_positive, pretty, pretty_N;
    rewrite decide_False by done.
  - apply digits_int. by rewrite digits_pretty_N_go.
  - change ("-" +:+ ?t) with (String "-" t).
    unfold Py.int. cbn [Py.skip_space].
    replace (Py.int_space "-") with false by done.
    cbn [Py.signed]. rewrite decide_False by done. rewrite decide_True by done.
    by rewrite digits_pretty_N_go.
Qed.

Lemma sorted_set_of_ascending (l : list Z) :
  StronglySorted Z.lt l -> Py.sorted_set l = l.
Proof.
  intros Hl. apply ascending_ext; [apply sorted_set_ascending|done|].
  intros v. apply elem_of_sorted_set.
Qed.

(** The decimal writing of a page number, as a selector. *)
Lemma parse_page_range_str_int z total_pages :
  0 <= z -> parse_page_range (str_int z) total_pages = inr [z - 1].
Proof.
  intros Hz. pose proof (all_digits_str_int z Hz) as Hd.
  assert (contribution (str_int z) = inr [z - 1]) as Hc.
  { apply contribution_inr. left.
    split; [by apply all_digits_contains|]. exists z. by rewrite int_str_int. }
  unfold parse_page_range. rewrite decide_False.
  - rewrite (split_no_sep "," (str_int z)) by by apply all_digits_contains.
    rewrite parse_parts_contributions. simpl. rewrite Hc. simpl.
    f_equal. apply sorted_set_of_ascending. repeat constructor.
  - intros Hall. by rewrite (all_keyword_rejected_as_token _ Hall) in Hc.
Qed.

End decimal.

(** X13.  The page number of a record, written in decimal and given back
    as the selector, selects that page alone: the extraction succeeds with
    that single record, and its [full_text] is the text of the record. *)
Theorem page_number_selects_its_record
    {V : Type} `{!Py.Str V} (file_path : string) (pdf : document V)
    (arg : pages_arg) (include_metadata : bool) (r : result)
    (p : page_record) :
  extract_text file_path pdf arg include_metadata = Success r ->
  p ∈ pages r ->
  exists r',
    extract_text file_path pdf (PagesStr (str_int (page p))) include_metadata
      = Success r' /\
    pages r' = [p] /\ full_text r' = text p /\ extracted_pages r' = 1.
Proof.
  intros (l & _ & _ & _ & _ & -> & _)%extract_text_Success_fields Hp.
  apply list_elem_of_fmap in Hp as (v & -> & [Hv _]%list_elem_of_filter).
  unfold extract_text. rewrite extract_text_traced_eq. simpl.
  rewrite parse_page_range_str_int by lia. simpl.
  replace (v + 1 - 1) with v by lia.
  rewrite (guarded_all pdf [v]) by (constructor; [done|constructor]).
  eexists. split; [done|]. done.
Qed.

Lemma page_number_selects_its_record_witness :
  exists r',
    extract_text "f.pdf" demo_pdf (PagesStr "4") true = Success r' /\
    pages r' = [PageRecord 4 "dd" 2] /\ full_text r' = "dd" /\
    extracted_pages r' = 1.
Proof.
  destruct (extract_text "f.pdf" demo_pdf (PagesStr "2-5") true)
    as [r|e] eqn:Hr; [|discriminate Hr].
  apply (page_number_selects_its_record
           "f.pdf" demo_pdf (PagesStr "2-5") true r (PageRecord 4 "dd" 2) Hr).
  injection Hr as <-. vm_compute. set_solver.
Defined.

(** X14.  The range from page 1 to the last page is the all-keyword:
    [extract_text] returns the same with either. *)
Theorem full_range_is_all
    {V : Type} `{!Py.Str V} (file_path : string) (pdf : document V)
    (include_metadata : bool) :
  extract_text file_path pdf
    (PagesStr ("1-" +:+ str_int (Z.of_nat (length (doc_pages pdf)))))
    include_metadata
  = extract_text file_path pdf (PagesStr "all") include_metadata.
Proof.
  set (n := Z.of_nat (length (doc_pages pdf))).
  assert (parse_page_range ("1-" +:+ str_int n) n = inr (Py.range 0 n)) as Hl.
  { pose proof (all_digits_str_int n ltac:(lia)) as Hd.
    change ("1-" +:+ str_int n) with (String "1" (String "-" (str_int n))).
    assert (contribution (String "1" (String "-" (str_int n)))
            = inr (Py.range 0 n)) as Hc.
    { apply contribution_inr. right. exists "1", (str_int n), 1, n.
      split; [|by rewrite int_str_int].
      cbn [Py.split]. rewrite decide_False by done. rewrite decide_True by done.
      by rewrite (split_no_sep "-" (str_int n))
        by by apply all_digits_contains. }
    unfold parse_page_range. rewrite decide_False.
    - rewrite split_no_sep.
      + rewrite parse_parts_contributions. simpl. rewrite Hc. simpl.
        rewrite app_nil_r. f_equal.
        apply sorted_set_of_ascending, range_ascending.
      + cbn [Py.contains]. rewrite !decide_False by done.
        by apply all_digits_contains.
    - intros Hall%lower_all_inv.
      repeat (apply elem_of_cons in Hall as [Hall|Hall]; [done|]).
      by apply elem_of_nil in Hall. }
  unfold extract_text. rewrite !extract_text_traced_eq. simpl.
  fold n. by rewrite Hl.
Qed.

(** * The command line *)

Section streams.
Implicit Types (s out x : string) (L : list string).

Lemma str_app_nil_r s : s +:+ "" = s.
Proof.
  induction s as [|c s IH]; [done|].
  change (String c s +:+ "") with (String c (s +:+ "")). by rewrite IH.
Qed.

Lemma str_app_assoc s1 s2 s3 : (s1 +:+ s2) +:+ s3 = s1 +:+ s2 +:+ s3.
Proof.
  induction s1 as [|c s1 IH]; [done|].
  change ((String c s1 +:+ s2) +:+ s3) with (String c ((s1 +:+ s2) +:+ s3)).
  by rewrite IH.
Qed.

Lemma contains_app c s1 s2 :
  Py.contains c (s1 +:+ s2) = Py.contains c s1 || Py.contains c s2.
Proof.
  induction s1 as [|d s1 IH]; [done|].
  change (String d s1 +:+ s2) with (String d (s1 +:+ s2)).
  cbn [Py.contains]. by case_decide.
Qed.

(** The lines of a stream, each followed by a newline. *)
Lemma unlines_cons l L :
  unlines (l :: L) = l +:+ String Py.newline "" +:+ unlines L.
Proof. done. Qed.

Lemma unlines_app L1 L2 : unlines (L1 ++ L2) = unlines L1 +:+ unlines L2.
Proof.
  induction L1 as [|l L1 IH]; [done|].
  simpl. by rewrite IH, !str_app_assoc.
Qed.

Lemma unlines_split s :
  unlines (Py.split Py.newline s) = s +:+ String Py.newline "".
Proof.
  induction s as [|c s IH]; [done|].
  cbn [Py.split]. case_decide as Hc.
  - subst c. by rewrite unlines_cons, IH.
  - destruct (Py.split Py.newline s) as [|h t] eqn:Hs;
      [by apply split_nonempty in Hs|].
    rewrite unlines_cons in IH |- *.
    change (String c h +:+ ?t) with (String c (h +:+ t)).
    rewrite IH. done.
Qed.

Lemma split_unlines L :
  Forall (fun l => Py.contains Py.newline l = false) L ->
  Py.split Py.newline (unlines L) = L ++ [""].
Proof.
  induction 1 as [|l L Hl _ IH]; [done|].
  rewrite unlines_cons.
  change (String Py.newline "" +:+ ?t) with (String Py.newline t).
  by rewrite split_app_sep, IH.
Qed.

Lemma split_join_lines L :
  L <> [] ->
  Py.split Py.newline (Py.join (String Py.newline "") L)
  = concat (Py.split Py.newline <$> L).
Proof.
  intros Hne. induction L as [|a [|b L] IH]; [done|..].
  - simpl. by rewrite app_nil_r.
  - change (Py.join (String Py.newline "") (a :: b :: L))
      with (a +:+ String Py.newline "" +:+ Py.join (String Py.newline "") (b :: L)).
    change (String Py.newline "" +:+ ?t) with (String Py.newline t).
    rewrite split_app_sep_any, IH by done. done.
Qed.

Lemma print_unlines x out :
  print x out = out +:+ unlines (Py.split Py.newline x).
Proof. by rewrite unlines_split. Qed.

Lemma str_int_no_newline (z : Z) :
  Py.contains Py.newline (str_int z) = false.
Proof.
  destruct z as [|p|p]; [done|by apply all_digits_contains, all_digits_str_int|].
  change (str_int (Z.neg p)) with ("-" +:+ str_int (Z.pos p)).
  rewrite contains_app.
  rewrite (all_digits_contains _ (str_int (Z.pos p))); [done..|].
  by apply all_digits_str_int.
Qed.

Lemma page_lines_no_newline p :
  Forall (fun l => Py.contains Py.newline l = false) (page_lines p).
Proof.
  unfold page_lines. apply Forall_app. split; [|apply split_pieces_no_sep].
  repeat (constructor; [done|]).
  constructor; [by rewrite contains_app, str_int_no_newline|].
  by repeat constructor.
Qed.

Lemma print_page_unlines out p :
  print_page out p = out +:+ unlines (page_lines p).
Proof.
  unfold print_page, page_lines. rewrite !print_unlines, !str_app_assoc.
  rewrite <-!unlines_app. do 2 f_equal.
  rewrite (split_no_sep Py.newline ("Page " +:+ str_int (page p)))
    by by rewrite contains_app, str_int_no_newline.
  done.
Qed.

Lemma foldl_print_page out ps :
  foldl print_page out ps = out +:+ unlines (concat (page_lines <$> ps)).
Proof.
  revert out. induction ps as [|p ps IH]; intros out.
  - simpl. by rewrite str_app_nil_r.
  - rewrite fmap_cons. cbn [foldl concat].
    by rewrite IH, print_page_unlines, unlines_app, str_app_assoc.
Qed.

End streams.

Section command_line.
Context `{Rendering} {V : Type} `{!Py.Str V}.
Implicit Types (pdf : document V) (args : namespace).

Lemma main_Success pdf args r :
  extract_text (args_file args) pdf (PagesStr (args_pages args))
    (negb (args_no_metadata args)) = Success r ->
  main pdf args =
  {| stdout :=
       match args_output args with
       | OutputJson => print (json_dumps r) ""
       | OutputText =>
           if args_page_breaks args
           then foldl print_page "" (pages r)
           else print (full_text r) ""
       end;
     stderr := "";
     exit_status := 0 |}.
Proof. unfold main. by intros ->. Qed.

Lemma main_Failure pdf args e :
  extract_text (args_file args) pdf (PagesStr (args_pages args))
    (negb (args_no_metadata args)) = Failure e ->
  main pdf args =
  {| stdout := "";
     stderr := print ("Error: " +:+ exn_message e) "";
     exit_status := 1 |}.
Proof. unfold main. by intros ->. Qed.

End command_line.

(** X15.  When [extract_text] returns a failure, [main] exits with status
    1, having written nothing to the standard output and one line,
    "Error: " followed by the error of the failure, to the standard error;
    so it does whenever the selector is not the all-keyword and has a
    malformed token.  When [extract_text] succeeds, [main] exits with
    status 0 and has written nothing to the standard error. *)
Theorem main_exit_status
    `{Rendering} {V : Type} `{!Py.Str V} (pdf : document V)
    (args : namespace) :
  (forall e,
     extract_text (args_file args) pdf (PagesStr (args_pages args))
       (negb (args_no_metadata args)) = Failure e ->
     exit_status (main pdf args) = 1 /\
     stdout (main pdf args) = "" /\
     stderr (main pdf args)
       = "Error: " +:+ exn_message e +:+ String Py.newline "") /\
  (forall tok,
     Py.lower (args_pages args) <> "all" ->
     tok ∈ Py.split "," (args_pages args) ->
     malformed tok = true ->
     exit_status (main pdf args) = 1 /\
     stdout (main pdf args) = "" /\
     exists e,
       stderr (main pdf args)
         = "Error: " +:+ exn_message e +:+ String Py.newline "") /\
  (forall r,
     extract_text (args_file args) pdf (PagesStr (args_pages args))
       (negb (args_no_metadata args)) = Success r ->
     exit_status (main pdf args) = 0 /\ stderr (main pdf args) = "").
Proof.
  split; [|split].
  - intros e He. by rewrite (main_Failure _ _ _ He).
  - intros tok Hall Hin Hbad.
    destruct (malformed_token_raises _ (Z.of_nat (length (doc_pages pdf)))
                _ Hall Hin Hbad) as [e He].
    assert (extract_text (args_file args) pdf (PagesStr (args_pages args))
              (negb (args_no_metadata args)) = Failure e) as Hr.
    { unfold extract_text. rewrite extract_text_traced_eq. simpl.
      by rewrite He. }
    rewrite (main_Failure _ _ _ Hr). simpl. eauto.
  - intros r Hr. by rewrite (main_Success _ _ _ Hr).
Qed.

Lemma main_exit_status_witness :
  exit_status (@main no_rendering _ _ demo_pdf
                 (Namespace "f.pdf" "1,x" OutputText false false)) = 1 /\
  exit_status (@main no_rendering _ _ demo_pdf
                 (Namespace "f.pdf" "1,3" OutputText false false)) = 0.
Proof.
  destruct (@main_exit_status no_rendering _ _ demo_pdf
              (Namespace "f.pdf" "1,x" OutputText false false))
    as (_ & Hbad & _).
  destruct (@main_exit_status no_rendering _ _ demo_pdf
              (Namespace "f.pdf" "1,3" OutputText false false))
    as (_ & _ & Hgood).
  split.
  - apply (Hbad "x");
      [vm_compute; discriminate | vm_compute; repeat constructor
      | reflexivity].
  - destruct (extract_text "f.pdf" demo_pdf (PagesStr "1,3") true)
      as [r|e] eqn:Hr; [|by vm_compute in Hr].
    apply (Hgood r). exact Hr.
Defined.

(** X16.  In text mode, what [main] writes to the standard output is, line
    for line: with page breaks, for each record a header of five lines (an
    empty line, a rule of sixty equals signs, "Page " and the page number,
    the rule again, an empty line) followed by the lines of its text;
    without page breaks, when there is a record, the lines of the texts
    alone.  The output ends with a newline. *)
Theorem text_output_lines
    `{Rendering} {V : Type} `{!Py.Str V} (pdf : document V)
    (args : namespace) (r : result) :
  extract_text (args_file args) pdf (PagesStr (args_pages args))
    (negb (args_no_metadata args)) = Success r ->
  args_output args = OutputText ->
  (args_page_breaks args = true ->
   Py.split Py.newline (stdout (main pdf args))
   = concat (page_lines <$> pages r) ++ [""]) /\
  (args_page_breaks args = false ->
   pages r <> [] ->
   Py.split Py.newline (stdout (main pdf args))
   = concat ((fun p => Py.split Py.newline (text p)) <$> pages r) ++ [""]).
Proof.
  intros Hr Hout. rewrite (main_Success _ _ _ Hr), Hout. simpl. split.
  - intros ->. rewrite foldl_print_page.
    change ("" +:+ ?t) with t. apply split_unlines.
    apply Forall_concat, Forall_fmap, Forall_forall. intros p _.
    apply page_lines_no_newline.
  - intros -> Hne. unfold print. change ("" +:+ ?t) with t.
    rewrite split_app_sep_any.
    apply extract_text_Success_fields in Hr as (_ & _ & _ & _ & _ & _ & -> & _).
    rewrite split_join_lines by (by intros ?%fmap_nil_inv).
    by rewrite <-list_fmap_compose.
Qed.

Lemma text_output_lines_witness :
  Py.split Py.newline
    (stdout (@main no_rendering _ _ demo_pdf
               (Namespace "f.pdf" "4" OutputText false true)))
  = [""; str_mul "=" 60; "Page 4"; str_mul "=" 60; ""; "dd"; ""].
Proof.
  destruct (extract_text "f.pdf" demo_pdf (PagesStr "4") true)
    as [r|e] eqn:Hr; [|discriminate Hr].
  destruct (@text_output_lines no_rendering _ _ demo_pdf
              (Namespace "f.pdf" "4" OutputText false true) r Hr eq_refl)
    as [Hbreaks _].
  rewrite (Hbreaks eq_refl). injection Hr as <-. reflexivity.
Defined.

(** X17.  A selector that resolves to no page of the document is not an
    error for [main]: it exits with status 0, having written in text mode
    a single empty line, or nothing at all with page breaks. *)
Theorem selecting_no_page_is_not_an_error
    `{Rendering} {V : Type} `{!Py.Str V} (pdf : document V)
    (args : namespace) (l : list Z) :
  parse_page_range (args_pages args) (Z.of_nat (length (doc_pages pdf)))
    = inr l ->
  Forall (fun v => ~ (0 <= v < Z.of_nat (length (doc_pages pdf)))) l ->
  args_output args = OutputText ->
  exit_status (main pdf args) = 0 /\
  stderr (main pdf args) = "" /\
  stdout (main pdf args)
    = (if args_page_breaks args then "" else String Py.newline "").
Proof.
  intros Hl Hout Htext.
  assert (guarded pdf l = []) as Hnone.
  { clear Hl. unfold guarded. induction Hout as [|v l Hv _ IH]; [done|].
    by rewrite filter_cons_False. }
  unfold main, extract_text. rewrite extract_text_traced_eq. simpl.
  rewrite Hl, Htext. simpl. rewrite Hnone. simpl.
  by destruct (args_page_breaks args).
Qed.

Lemma selecting_no_page_is_not_an_error_witness :
  stdout (@main no_rendering _ _ demo_pdf
            (Namespace "f.pdf" "0,6-9" OutputText false false))
  = String Py.newline "".
Proof.
  apply (@selecting_no_page_is_not_an_error no_rendering _ _ demo_pdf
           (Namespace "f.pdf" "0,6-9" OutputText false false)
           [-1; 5; 6; 7; 8]).
  - vm_compute. reflexivity.
  - repeat (constructor; [simpl; lia|]). constructor.
  - reflexivity.
Defined.
